(** * Warehouse location optimizer: cost model and optimization loop

    A shallow embedding of [facility_location_problem.py] and of the data
    it is fed by [data_generator.py].

    Modelling conventions.
    - A Python float is a real number; the NaN that pandas returns for the
      mean, minimum or maximum of an empty column is [None].
    - A pandas [Series] is the list of its values in index order.  A
      [DataFrame] is column oriented, as in pandas: the columns read from the
      CSV files are stored per row, the two columns that
      [calculate_total_cost] assigns ("Distance_km" and "Cost") are optional
      whole columns of the frame.
    - [geopy.distance.distance] and [scipy.optimize.minimize] are libraries.
      The distance is a parameter of the development; the solver is a
      parameter that produces a finite interaction with its objective
      function and its callback.
    - Reading and writing files is left to the caller: the loader takes the
      tables the CSV files hold, the generator takes the arrays numpy draws,
      and the map builder returns the map it saves.  Python's float formats
      are parameters. *)

From Stdlib Require Import Reals Lra Lia List String Ascii Bool DecimalString DecimalNat.
Import ListNotations.

Open Scope R_scope.

(** ** Series *)

Module Series.

Definition t := list R.

(** [Series.sum()]; the sum of an empty series is 0. *)
Definition sum (s : t) : R := fold_right Rplus 0 s.

(** [series * scalar] *)
Definition scale (s : t) (c : R) : t := map (fun v => v * c) s.

(** [series + series], both over the index of one frame. *)
Fixpoint add (s1 s2 : t) : t :=
  match s1, s2 with
  | v1 :: s1', v2 :: s2' => (v1 + v2) :: add s1' s2'
  | _, _ => []
  end.

(** [Series.mean()]: NaN on an empty series. *)
Definition mean (s : t) : option R :=
  match s with
  | [] => None
  | _ :: _ => Some (sum s / INR (List.length s))
  end.

(** [Series.min()] and [Series.max()]: NaN on an empty series. *)
Definition min (s : t) : option R :=
  match s with
  | [] => None
  | v :: s' => Some (fold_left Rmin s' v)
  end.

Definition max (s : t) : option R :=
  match s with
  | [] => None
  | v :: s' => Some (fold_left Rmax s' v)
  end.

End Series.

(** ** Floats that may be NaN *)

Definition pyfloat := option R.

(** [a + b] and [a / 2] on floats: NaN propagates. *)
Definition nan_add (a b : pyfloat) : pyfloat :=
  match a, b with
  | Some u, Some v => Some (u + v)
  | _, _ => None
  end.

Definition nan_half (a : pyfloat) : pyfloat :=
  match a with
  | Some u => Some (u / 2)
  | None => None
  end.

(** ** Data frames *)

Definition point := (R * R)%type.

(** A row of suppliers.csv or customers.csv. *)
Record node := mkNode {
  Node_ID : string;
  Latitude : R;
  Longitude : R
}.

Definition nodes := list node.

(** A row of the merged inbound or outbound frame: the shipment and the
    coordinates of its supplier or customer. *)
Record shipment := mkShipment {
  Shipment_ID : string;
  Volume_m3 : R;
  Ship_Latitude : R;
  Ship_Longitude : R
}.

Record frame := mkFrame {
  rows : list shipment;
  Distance_km : option Series.t;
  Cost : option Series.t
}.

Definition loaded (l : list shipment) : frame :=
  {| rows := l; Distance_km := None; Cost := None |}.

Definition set_Distance_km (df : frame) (s : Series.t) : frame :=
  {| rows := rows df; Distance_km := Some s; Cost := Cost df |}.

Definition set_Cost (df : frame) (s : Series.t) : frame :=
  {| rows := rows df; Distance_km := Distance_km df; Cost := Some s |}.

Definition location (r : shipment) : point := (Ship_Latitude r, Ship_Longitude r).

Definition volumes (df : frame) : Series.t := map Volume_m3 (rows df).

(** ** The cost model *)

Definition default_distance_cost : R := 0.5.
Definition default_volume_cost : R := 10.

Section CostModel.

(** [geopy.distance.distance(a, b).km] *)
Variable distance : point -> point -> R.

(** [calculate_total_cost]: the returned total and the two frames as the
    call leaves them.  Each "Cost" assignment reads the "Distance_km" column
    stored on the line before it.  The model is that of frames with rows: on
    a frame without rows pandas' row-wise [apply] returns a frame, the column
    assignment raises, and this function does not follow it there. *)
Definition calculate_total_cost (warehouse_coords : point)
    (inbound outbound : frame) (distance_cost volume_cost : R)
    : R * (frame * frame) :=
  let d_in := map (fun row => distance (location row) warehouse_coords) (rows inbound) in
  let inbound := set_Distance_km inbound d_in in
  let c_in := Series.add (Series.scale d_in distance_cost)
                         (Series.scale (volumes inbound) volume_cost) in
  let inbound := set_Cost inbound c_in in
  let d_out := map (fun row => distance warehouse_coords (location row)) (rows outbound) in
  let outbound := set_Distance_km outbound d_out in
  let c_out := Series.add (Series.scale d_out distance_cost)
                          (Series.scale (volumes outbound) volume_cost) in
  let outbound := set_Cost outbound c_out in
  (Series.sum c_in + Series.sum c_out, (inbound, outbound)).

(** The call with the default rates, as the optimizer makes it. *)
Definition total_cost_default (warehouse_coords : point) (inbound outbound : frame) :=
  calculate_total_cost warehouse_coords inbound outbound
    default_distance_cost default_volume_cost.

End CostModel.

(** ** The solver interface *)

(** The fields of scipy's [OptimizeResult] that matter here. *)
Record OptimizeResult := mkResult {
  x : point;
  fun_ : R;
  success : bool;
  nit : nat
}.

(** An exception, by the name of its class. *)
Definition exn := string.

Inductive outcome (A : Type) : Type :=
| Returned (a : A)
| Raised (e : exn).

Arguments Returned {A} a.
Arguments Raised {A} e.

(** What a call of [minimize] does, seen from the caller: it asks for the
    objective at a point, reports an iterate to the callback, raises, or
    finishes with a result. *)
Inductive solver : Type :=
| Finish (result : OptimizeResult)
| Abort (e : exn)
| Evaluate (coords : point) (k : R -> solver)
| Callback (xk : point) (k : solver).

(** [bounds=[(lat_min, lat_max), (lon_min, lon_max)]] *)
Definition bounds := ((pyfloat * pyfloat) * (pyfloat * pyfloat))%type.

(** [minimize(fun, x0, method="L-BFGS-B", bounds, callback)], given [x0] and
    [bounds]. *)
Definition minimizer := (pyfloat * pyfloat) -> bounds -> solver.

(** ** The optimizer *)

(** The objects the closures of [optimize_with_history] share, and the points
    at which the cost function has been called (a ghost field). *)
Record state := mkState {
  st_inbound : frame;
  st_outbound : frame;
  cost_history : list R;
  evaluated : list point
}.

Definition initial_guess (suppliers customers : nodes) : pyfloat * pyfloat :=
  (nan_half (nan_add (Series.mean (map Latitude suppliers))
                     (Series.mean (map Latitude customers))),
   nan_half (nan_add (Series.mean (map Longitude suppliers))
                     (Series.mean (map Longitude customers)))).

Definition search_bounds (suppliers : nodes) : bounds :=
  ((Series.min (map Latitude suppliers), Series.max (map Latitude suppliers)),
   (Series.min (map Longitude suppliers), Series.max (map Longitude suppliers))).

Section Optimizer.

Variable distance : point -> point -> R.
Variable minimize : minimizer.

(** The solver at work: [Evaluate] is a call of the [fun] lambda,
    [Callback] a call of [callback]. *)
Fixpoint run (s : solver) (st : state) : outcome OptimizeResult * state :=
  match s with
  | Finish result => (Returned result, st)
  | Abort e => (Raised e, st)
  | Evaluate coords k =>
      let '(v, (inb, outb)) :=
        total_cost_default distance coords (st_inbound st) (st_outbound st) in
      run (k v) {| st_inbound := inb; st_outbound := outb;
                   cost_history := cost_history st;
                   evaluated := evaluated st ++ [coords] |}
  | Callback xk k =>
      let '(v, (inb, outb)) :=
        total_cost_default distance xk (st_inbound st) (st_outbound st) in
      run k {| st_inbound := inb; st_outbound := outb;
               cost_history := cost_history st ++ [v];
               evaluated := evaluated st ++ [xk] |}
  end.

(** [result = minimize(...)] *)
Definition minimize_call (inbound outbound : frame) (suppliers customers : nodes)
    : outcome OptimizeResult * state :=
  run (minimize (initial_guess suppliers customers) (search_bounds suppliers))
      {| st_inbound := inbound; st_outbound := outbound;
         cost_history := []; evaluated := [] |}.

(** [optimize_with_history]: what it returns or raises, and the state it
    leaves behind. *)
Definition optimize_with_history (inbound outbound : frame)
    (suppliers customers : nodes)
    : outcome (point * R * list R) * state :=
  let '(r, st) := minimize_call inbound outbound suppliers customers in
  (match r with
   | Returned result => Returned (x result, fun_ result, cost_history st)
   | Raised e => Raised e
   end, st).

End Optimizer.

(** ** Specification-side definitions *)

(** Cost of one shipment. *)
Definition shipment_cost (distance_km volume_m3 distance_rate volume_rate : R) : R :=
  distance_km * distance_rate + volume_m3 * volume_rate.

(** The objective as a function of the candidate and of the loaded columns. *)
Definition objective (distance : point -> point -> R)
    (inbound outbound : list shipment) (distance_rate volume_rate : R)
    (candidate : point) : R :=
  Series.sum (map (fun s => shipment_cost (distance (location s) candidate)
                                          (Volume_m3 s) distance_rate volume_rate) inbound)
  + Series.sum (map (fun s => shipment_cost (distance candidate (location s))
                                            (Volume_m3 s) distance_rate volume_rate) outbound).

(** Arithmetic mean of a non-empty list. *)
Definition arithmetic_mean (l : list R) : R := Series.sum l / INR (List.length l).

Definition mean_location (ns : nodes) : point :=
  (arithmetic_mean (map Latitude ns), arithmetic_mean (map Longitude ns)).

Definition midpoint (a b : point) : point :=
  ((fst a + fst b) / 2, (snd a + snd b) / 2).

Definition is_min (m : R) (l : list R) : Prop := In m l /\ forall v, In v l -> m <= v.
Definition is_max (m : R) (l : list R) : Prop := In m l /\ forall v, In v l -> v <= m.

Definition in_box (lat_lo lat_hi lon_lo lon_hi : R) (p : point) : Prop :=
  lat_lo <= fst p <= lat_hi /\ lon_lo <= snd p <= lon_hi.

(** A solver against a pure objective: its result, the values its callback
    records and the points it asks for. *)
Fixpoint drive (f : point -> R) (s : solver)
    : outcome OptimizeResult * (list R * list point) :=
  match s with
  | Finish result => (Returned result, ([], []))
  | Abort e => (Raised e, ([], []))
  | Evaluate coords k =>
      let '(r, (h, e)) := drive f (k (f coords)) in (r, (h, coords :: e))
  | Callback xk k =>
      let '(r, (h, e)) := drive f k in (r, (f xk :: h, xk :: e))
  end.

(** Contract of a box-constrained solver: whatever the objective answers, it
    asks for the objective, and reports iterates, only inside the box. *)
Fixpoint stays_in (lat_lo lat_hi lon_lo lon_hi : R) (s : solver) : Prop :=
  match s with
  | Finish _ => True
  | Abort _ => True
  | Evaluate coords k =>
      in_box lat_lo lat_hi lon_lo lon_hi coords
      /\ forall v, stays_in lat_lo lat_hi lon_lo lon_hi (k v)
  | Callback xk k =>
      in_box lat_lo lat_hi lon_lo lon_hi xk
      /\ stays_in lat_lo lat_hi lon_lo lon_hi k
  end.

Definition respects_bounds (minimize : minimizer) : Prop :=
  forall x0 lat_lo lat_hi lon_lo lon_hi,
    lat_lo <= lat_hi -> lon_lo <= lon_hi ->
    stays_in lat_lo lat_hi lon_lo lon_hi
      (minimize x0 ((Some lat_lo, Some lat_hi), (Some lon_lo, Some lon_hi))).

(** ** A distance and a solver to run the model on *)

Module GreatCircle.

(** Mean Earth radius in km, and degrees to radians. *)
Definition EARTH_RADIUS : R := 6371.009.

Definition radians (degrees : R) : R := degrees * PI / 180.

Definition central_angle (a b : point) : R :=
  acos (sin (radians (fst a)) * sin (radians (fst b))
        + cos (radians (fst a)) * cos (radians (fst b))
          * cos (radians (snd b) - radians (snd a))).

(** Modelled from the spec: [geopy.distance.distance] is a library function
    that the sources import and do not define; the spec calls it the
    great-circle distance between two points.  This is the great-circle
    distance in km on a sphere of mean Earth radius, by the spherical law of
    cosines. *)
Definition distance_km (a b : point) : R := EARTH_RADIUS * central_angle a b.

End GreatCircle.

(** [np.clip(v, lo, hi)] *)
Definition clip (v lo hi : R) : R := Rmin (Rmax v lo) hi.

(** A sample solver, not scipy's algorithm: it moves the start into the box,
    evaluates the objective there, reports that iterate to the callback once
    and stops.  [converged] is the [success] flag it reports.  It raises on a
    NaN start or bound. *)
Definition probe_minimize (converged : bool) : minimizer :=
  fun x0 b =>
    match x0, b with
    | (Some lat, Some lon), ((Some lat_lo, Some lat_hi), (Some lon_lo, Some lon_hi)) =>
        let c := (clip lat lat_lo lat_hi, clip lon lon_lo lon_hi) in
        Evaluate c (fun v =>
          Callback c (Finish {| x := c; fun_ := v; success := converged; nit := 1 |}))
    | _, _ => Abort "ValueError"%string
    end.

(** Sample data: one supplier and one customer at (50, 10), one shipment of
    100 m3 each way. *)
Definition sample_suppliers : nodes := [mkNode "S1"%string 50 10].
Definition sample_customers : nodes := [mkNode "C1"%string 50 10].
Definition sample_inbound : frame := loaded [mkShipment "Inbound_1"%string 100 50 10].
Definition sample_outbound : frame := loaded [mkShipment "Outbound_1"%string 100 50 10].
(** [minimize] on a box whose lower and upper bounds coincide on both axes:
    scipy then fixes every variable at its bound, evaluates the objective
    there once and returns that point and value, whatever the start is and
    without calling the callback.  Other boxes are outside this stand-in,
    which raises on them. *)
Definition fixed_box_minimize : minimizer :=
  fun _ b =>
    match b with
    | ((Some lat_lo, Some lat_hi), (Some lon_lo, Some lon_hi)) =>
        if Req_dec_T lat_lo lat_hi then
          if Req_dec_T lon_lo lon_hi then
            Evaluate (lat_lo, lon_lo) (fun v =>
              Finish {| x := (lat_lo, lon_lo); fun_ := v; success := true; nit := 0 |})
          else Abort "NotImplementedError"%string
        else Abort "NotImplementedError"%string
    | _ => Abort "ValueError"%string
    end.



(** ** Loading the data *)

(** A row of shipments.csv. *)
Record shipment_record := mkRecord {
  Rec_Shipment_ID : string;
  Origin : string;
  Destination : string;
  Rec_Volume_m3 : R
}.

(** A row of [pd.merge(shipments, nodes, how="left")]: the shipment's columns
    and the node's columns, which are NaN where no node has the key. *)
Record merged_row := mkMerged {
  M_Shipment_ID : string;
  M_Origin : string;
  M_Destination : string;
  M_Volume_m3 : R;
  M_Node_ID : option string;
  M_Latitude : pyfloat;
  M_Longitude : pyfloat
}.

Definition joined (r : shipment_record) (n : node) : merged_row :=
  {| M_Shipment_ID := Rec_Shipment_ID r; M_Origin := Origin r;
     M_Destination := Destination r; M_Volume_m3 := Rec_Volume_m3 r;
     M_Node_ID := Some (Node_ID n);
     M_Latitude := Some (Latitude n); M_Longitude := Some (Longitude n) |}.

Definition unjoined (r : shipment_record) : merged_row :=
  {| M_Shipment_ID := Rec_Shipment_ID r; M_Origin := Origin r;
     M_Destination := Destination r; M_Volume_m3 := Rec_Volume_m3 r;
     M_Node_ID := None; M_Latitude := None; M_Longitude := None |}.

(** The nodes whose identifier is [key], in table order. *)
Definition matches (key : string) (right : nodes) : nodes :=
  filter (fun n => String.eqb key (Node_ID n)) right.

(** [pd.merge(left, right, left_on=..., right_on=..., how="left")]: the left
    rows in their order, each once per matching right row and once with NaN
    when there is none. *)
Definition merge_left (left_on : shipment_record -> string)
    (left : list shipment_record) (right : nodes) : list merged_row :=
  flat_map (fun r =>
              match matches (left_on r) right with
              | [] => [unjoined r]
              | n :: ns => map (joined r) (n :: ns)
              end) left.

(** [load_and_prepare_data], given what the three CSV files hold. *)
Definition load_and_prepare_data (suppliers customers : nodes)
    (shipments : list shipment_record)
    : list merged_row * list merged_row * nodes * nodes :=
  let inbound := filter (fun r => String.eqb (Destination r) "Warehouse") shipments in
  let outbound := filter (fun r => String.eqb (Origin r) "Warehouse") shipments in
  let inbound := merge_left Origin inbound suppliers in
  let outbound := merge_left Destination outbound customers in
  (inbound, outbound, suppliers, customers).

(** The columns of a merged frame that [calculate_total_cost] reads, when no
    coordinate is NaN. *)
Fixpoint cost_rows (m : list merged_row) : option (list shipment) :=
  match m with
  | [] => Some []
  | r :: m' =>
      match M_Latitude r, M_Longitude r, cost_rows m' with
      | Some lat, Some lon, Some l =>
          Some (mkShipment (M_Shipment_ID r) (M_Volume_m3 r) lat lon :: l)
      | _, _, _ => None
      end
  end.

(** ** Generating the data *)

(** [str(i)] for a natural number. *)
Definition decimal (i : nat) : string := NilEmpty.string_of_uint (Nat.to_uint i).

Section DataGenerator.

(** [np.round] and the arrays that [np.random.uniform] and [np.random.choice]
    return. *)
Variable np_round : R -> R.
Variables supplier_lat supplier_lon customer_lat customer_lon : list R.
Variables inbound_origin outbound_destination : list string.
Variables inbound_volume outbound_volume : list R.

Definition generated_nodes (name : string) (lat lon : list R) : nodes :=
  map (fun '(i, (la, lo)) => mkNode (name ++ decimal i) (np_round la) (np_round lo))
      (combine (seq 1 100) (combine lat lon)).

Definition generated_suppliers : nodes :=
  generated_nodes "Supplier_ID" supplier_lat supplier_lon.

Definition generated_customers : nodes :=
  generated_nodes "Customer_ID" customer_lat customer_lon.

Definition generated_inbound : list shipment_record :=
  map (fun '(i, (o, v)) => mkRecord ("Inbound_" ++ decimal i) o "Warehouse" (np_round v))
      (combine (seq 1 250) (combine inbound_origin inbound_volume)).

Definition generated_outbound : list shipment_record :=
  map (fun '(i, (d, v)) => mkRecord ("Outbound_" ++ decimal i) "Warehouse" d (np_round v))
      (combine (seq 1 250) (combine outbound_destination outbound_volume)).

(** [pd.concat([inbound, outbound])] *)
Definition generated_shipments : list shipment_record :=
  generated_inbound ++ generated_outbound.

End DataGenerator.

(** ** The map *)

Record Icon := mkIcon {
  icon_color : string;
  icon_name : string;
  icon_prefix : string
}.

Record CircleMarker := mkCircle {
  circle_location : point;
  circle_radius : R;
  circle_color : string;
  circle_fill : bool;
  circle_fill_color : string;
  circle_popup : string
}.

Inductive child : Type :=
| Marker (marker_location : point) (popup : string) (icon : Icon)
| FeatureGroup (name : string) (circles : list CircleMarker)
| LayerControl.

Record Map := mkMap {
  map_location : point;
  zoom_start : nat;
  children : list child
}.

Section InteractiveMap.

(** The float formats [{v:.4f}] and [{v:,.2f}] of the popups. *)
Variable format_4f : R -> string.
Variable format_money : R -> string.

(** The circles of the "Optimization Progress" group, [i] counting from
    [start]. *)
Fixpoint progress_circles (optimal_coords : point) (start : nat) (cost_history : list R)
    : list CircleMarker :=
  match cost_history with
  | [] => []
  | cost :: rest =>
      {| circle_location := (fst optimal_coords + 0.1,
                             snd optimal_coords + 0.1 + INR start * 0.01);
         circle_radius := 5;
         circle_color := "#3186cc";
         circle_fill := true;
         circle_fill_color := "#3186cc";
         circle_popup := "Iteration " ++ decimal (start + 1) ++ ": $" ++ format_money cost |}
      :: progress_circles optimal_coords (S start) rest
  end.

(** [create_interactive_map]: the map it builds, which it then saves to
    optimal_warehouse_map.html and opens; [children] holds what the function
    adds to the map, in the order it adds it. *)
Definition create_interactive_map (optimal_coords : point) (suppliers customers : nodes)
    (cost_history : list R) : Map :=
  {| map_location := optimal_coords;
     zoom_start := 6;
     children :=
       map (fun row => Marker (Latitude row, Longitude row)
                         ("Supplier " ++ Node_ID row)
                         (mkIcon "red" "truck" "fa")) suppliers
       ++ map (fun row => Marker (Latitude row, Longitude row)
                            ("Customer " ++ Node_ID row)
                            (mkIcon "blue" "user" "fa")) customers
       ++ [Marker optimal_coords
             ("Optimal Warehouse<br>Lat: " ++ format_4f (fst optimal_coords)
              ++ "<br>Lon: " ++ format_4f (snd optimal_coords))
             (mkIcon "green" "star" "fa");
           FeatureGroup "Optimization Progress"
             (progress_circles optimal_coords 0 cost_history);
           LayerControl] |}.

End InteractiveMap.

(** ** More specification-side definitions *)

(** The iterates a solver reports to its callback, against a pure objective. *)
Fixpoint iterates (f : point -> R) (s : solver) : list point :=
  match s with
  | Finish _ => []
  | Abort _ => []
  | Evaluate coords k => iterates f (k (f coords))
  | Callback xk k => xk :: iterates f k
  end.

(** Total distance and total volume of the shipments for a candidate. *)
Definition total_distance (distance : point -> point -> R)
    (inbound outbound : list shipment) (candidate : point) : R :=
  Series.sum (map (fun s => distance (location s) candidate) inbound)
  + Series.sum (map (fun s => distance candidate (location s)) outbound).

Definition total_volume (inbound outbound : list shipment) : R :=
  Series.sum (map Volume_m3 inbound) + Series.sum (map Volume_m3 outbound).

(** The frames a call of [calculate_total_cost] at [w] leaves, by columns. *)
Definition costed (distance : point -> point -> R) (w : point) (dc vc : R)
    (inbound : bool) (l : list shipment) : frame :=
  let d := fun s => if inbound then distance (location s) w else distance w (location s) in
  {| rows := l;
     Distance_km := Some (map d l);
     Cost := Some (map (fun s => shipment_cost (d s) (Volume_m3 s) dc vc) l) |}.

(** * Properties *)

(** ** Series arithmetic *)

Lemma series_cost_column (A : Type) (f g : A -> R) (dc vc : R) (l : list A) :
  Series.add (Series.scale (map f l) dc) (Series.scale (map g l) vc)
  = map (fun a => shipment_cost (f a) (g a) dc vc) l.
Proof.
  unfold Series.scale, shipment_cost.
  induction l as [|a l IH]; simpl; [reflexivity|].
  now rewrite IH.
Qed.

Lemma series_sum_app (s1 s2 : Series.t) :
  Series.sum (s1 ++ s2) = Series.sum s1 + Series.sum s2.
Proof.
  unfold Series.sum.
  induction s1 as [|v s1 IH]; simpl; [lra|].
  rewrite IH. lra.
Qed.

Lemma series_sum_nonneg (s : Series.t) :
  Forall (fun v => 0 <= v) s -> 0 <= Series.sum s.
Proof.
  unfold Series.sum.
  induction 1 as [|v s Hv _ IH]; simpl; lra.
Qed.

Lemma fold_left_Rmin_le (l : list R) (a : R) :
  fold_left Rmin l a <= a /\ forall v, In v l -> fold_left Rmin l a <= v.
Proof.
  revert a. induction l as [|b l IH]; intros a; simpl.
  - split; [lra | tauto].
  - destruct (IH (Rmin a b)) as [H1 H2].
    pose proof (Rmin_l a b). pose proof (Rmin_r a b).
    split; [lra|].
    intros v [<-|Hv]; [lra | auto].
Qed.

Lemma fold_left_Rmin_In (l : list R) (a : R) :
  fold_left Rmin l a = a \/ In (fold_left Rmin l a) l.
Proof.
  revert a. induction l as [|b l IH]; intros a; simpl; [now left|].
  destruct (IH (Rmin a b)) as [H|H]; [|now right; right].
  rewrite H. unfold Rmin. destruct (Rle_dec a b); [now left | now right; left].
Qed.

Lemma fold_left_Rmax_ge (l : list R) (a : R) :
  a <= fold_left Rmax l a /\ forall v, In v l -> v <= fold_left Rmax l a.
Proof.
  revert a. induction l as [|b l IH]; intros a; simpl.
  - split; [lra | tauto].
  - destruct (IH (Rmax a b)) as [H1 H2].
    pose proof (Rmax_l a b). pose proof (Rmax_r a b).
    split; [lra|].
    intros v [<-|Hv]; [lra | auto].
Qed.

Lemma fold_left_Rmax_In (l : list R) (a : R) :
  fold_left Rmax l a = a \/ In (fold_left Rmax l a) l.
Proof.
  revert a. induction l as [|b l IH]; intros a; simpl; [now left|].
  destruct (IH (Rmax a b)) as [H|H]; [|now right; right].
  rewrite H. unfold Rmax. destruct (Rle_dec a b); [now right; left | now left].
Qed.

Lemma series_min_spec (s : Series.t) (m : R) :
  Series.min s = Some m -> is_min m s.
Proof.
  destruct s as [|a l]; simpl; [discriminate|].
  intros [= <-]. split.
  - destruct (fold_left_Rmin_In l a) as [->|H]; [now left | now right].
  - destruct (fold_left_Rmin_le l a) as [H1 H2].
    intros v [<-|Hv]; auto.
Qed.

Lemma series_max_spec (s : Series.t) (m : R) :
  Series.max s = Some m -> is_max m s.
Proof.
  destruct s as [|a l]; simpl; [discriminate|].
  intros [= <-]. split.
  - destruct (fold_left_Rmax_In l a) as [->|H]; [now left | now right].
  - destruct (fold_left_Rmax_ge l a) as [H1 H2].
    intros v [<-|Hv]; auto.
Qed.

Lemma series_mean_nonempty (s : Series.t) :
  s <> [] -> Series.mean s = Some (arithmetic_mean s).
Proof.
  destruct s; [congruence | reflexivity].
Qed.

Lemma clip_in (v lo hi : R) : lo <= hi -> lo <= clip v lo hi <= hi.
Proof.
  intros H. unfold clip, Rmin, Rmax.
  destruct (Rle_dec v lo); destruct (Rle_dec _ hi); lra.
Qed.

Lemma clip_inside (v lo hi : R) : lo <= v <= hi -> clip v lo hi = v.
Proof.
  intros H. unfold clip, Rmin, Rmax.
  destruct (Rle_dec v lo); destruct (Rle_dec _ hi); lra.
Qed.

(** ** The cost model *)

Section CostModelFacts.

Variable distance : point -> point -> R.

Lemma calculate_total_cost_value w inb outb dc vc :
  fst (calculate_total_cost distance w inb outb dc vc)
  = objective distance (rows inb) (rows outb) dc vc w.
Proof.
  unfold calculate_total_cost, objective, volumes. simpl.
  now rewrite !series_cost_column.
Qed.

Lemma calculate_total_cost_rows w inb outb dc vc :
  rows (fst (snd (calculate_total_cost distance w inb outb dc vc))) = rows inb
  /\ rows (snd (snd (calculate_total_cost distance w inb outb dc vc))) = rows outb.
Proof. split; reflexivity. Qed.

Lemma calculate_total_cost_Cost w inb outb dc vc :
  Cost (fst (snd (calculate_total_cost distance w inb outb dc vc)))
  = Some (map (fun s => shipment_cost (distance (location s) w) (Volume_m3 s) dc vc)
              (rows inb))
  /\ Cost (snd (snd (calculate_total_cost distance w inb outb dc vc)))
     = Some (map (fun s => shipment_cost (distance w (location s)) (Volume_m3 s) dc vc)
                 (rows outb)).
Proof.
  unfold calculate_total_cost, volumes. simpl.
  rewrite !series_cost_column. split; reflexivity.
Qed.

End CostModelFacts.

(** ** The great-circle distance *)

Lemma great_circle_symmetric (a b : point) :
  GreatCircle.distance_km a b = GreatCircle.distance_km b a.
Proof.
  unfold GreatCircle.distance_km, GreatCircle.central_angle.
  do 2 f_equal.
  replace (GreatCircle.radians (snd b) - GreatCircle.radians (snd a))
    with (- (GreatCircle.radians (snd a) - GreatCircle.radians (snd b))) by lra.
  rewrite cos_neg. lra.
Qed.

Lemma great_circle_nonneg (a b : point) : 0 <= GreatCircle.distance_km a b.
Proof.
  unfold GreatCircle.distance_km, GreatCircle.EARTH_RADIUS.
  destruct (acos_bound (sin (GreatCircle.radians (fst a)) * sin (GreatCircle.radians (fst b))
          + cos (GreatCircle.radians (fst a)) * cos (GreatCircle.radians (fst b))
            * cos (GreatCircle.radians (snd b) - GreatCircle.radians (snd a)))) as [H _].
  unfold GreatCircle.central_angle.
  apply Rmult_le_pos; lra.
Qed.

Lemma great_circle_same_point (a : point) : GreatCircle.distance_km a a = 0.
Proof.
  unfold GreatCircle.distance_km, GreatCircle.central_angle.
  rewrite Rminus_diag, cos_0.
  replace (sin (GreatCircle.radians (fst a)) * sin (GreatCircle.radians (fst a))
           + cos (GreatCircle.radians (fst a)) * cos (GreatCircle.radians (fst a)) * 1)
    with ((sin (GreatCircle.radians (fst a)))² + (cos (GreatCircle.radians (fst a)))²)
    by (unfold Rsqr; lra).
  rewrite sin2_cos2, acos_1. lra.
Qed.

(** ** Claims on the cost model *)

(** C1 (as amended): [calculate_total_cost] keeps the rows of both frames, with
    their volumes and coordinates, and stores the "Distance_km" and "Cost"
    columns in both; what it returns afterwards, for any candidate and rates,
    does not depend on the columns it stored. *)
Theorem calculate_total_cost_frame_effect
    (distance : point -> point -> R) (w : point) (inb outb : frame) (dc vc : R) :
  let r := calculate_total_cost distance w inb outb dc vc in
  rows (fst (snd r)) = rows inb
  /\ rows (snd (snd r)) = rows outb
  /\ Distance_km (fst (snd r)) = Some (map (fun s => distance (location s) w) (rows inb))
  /\ Cost (fst (snd r))
     = Some (map (fun s => shipment_cost (distance (location s) w) (Volume_m3 s) dc vc)
                 (rows inb))
  /\ Distance_km (snd (snd r)) = Some (map (fun s => distance w (location s)) (rows outb))
  /\ Cost (snd (snd r))
     = Some (map (fun s => shipment_cost (distance w (location s)) (Volume_m3 s) dc vc)
                 (rows outb))
  /\ forall w' dc' vc',
       fst (calculate_total_cost distance w' (fst (snd r)) (snd (snd r)) dc' vc')
       = fst (calculate_total_cost distance w' inb outb dc' vc').
Proof.
  intros r. subst r. unfold calculate_total_cost, volumes. simpl.
  rewrite !series_cost_column.
  repeat split; reflexivity.
Qed.

(** C1 (as stated) fails: the call on freshly loaded frames returns frames
    that differ from the ones it was given. *)
Lemma calculate_total_cost_mutates_frames :
  snd (calculate_total_cost GreatCircle.distance_km (50, 10)
         sample_inbound sample_outbound 0.5 10)
  <> (sample_inbound, sample_outbound).
Proof.
  intros H.
  apply (f_equal (fun p => Distance_km (fst p))) in H.
  simpl in H. discriminate H.
Qed.

(** C6: the total returned by [calculate_total_cost] is the sum, over the
    inbound and the outbound shipments, of
    distance * distance rate + volume * volume rate, the distance being taken
    between the shipment's node and the candidate; the rates default to 0.5
    and 10. *)
Theorem calculate_total_cost_sums_shipment_costs
    (distance : point -> point -> R) (w : point) (inb outb : frame) :
  (forall dc vc,
     fst (calculate_total_cost distance w inb outb dc vc)
     = Series.sum
         (map (fun s => distance (location s) w * dc + Volume_m3 s * vc) (rows inb)
          ++ map (fun s => distance w (location s) * dc + Volume_m3 s * vc) (rows outb)))
  /\ fst (total_cost_default distance w inb outb)
     = Series.sum
         (map (fun s => distance (location s) w * 0.5 + Volume_m3 s * 10) (rows inb)
          ++ map (fun s => distance w (location s) * 0.5 + Volume_m3 s * 10) (rows outb)).
Proof.
  assert (H : forall dc vc,
     fst (calculate_total_cost distance w inb outb dc vc)
     = Series.sum
         (map (fun s => distance (location s) w * dc + Volume_m3 s * vc) (rows inb)
          ++ map (fun s => distance w (location s) * dc + Volume_m3 s * vc) (rows outb))).
  { intros dc vc. rewrite calculate_total_cost_value, series_sum_app. reflexivity. }
  split; [exact H|].
  unfold total_cost_default, default_distance_cost, default_volume_cost. apply H.
Qed.

(** C8: with a distance that is never negative, volumes that are not negative
    and rates that are not negative, every entry of the "Cost" columns that
    [calculate_total_cost] stores is at least 0, and so is the total. *)
Theorem costs_nonnegative
    (distance : point -> point -> R) (w : point) (inb outb : frame) (dc vc : R) :
  (forall a b, 0 <= distance a b) ->
  Forall (fun s => 0 <= Volume_m3 s) (rows inb) ->
  Forall (fun s => 0 <= Volume_m3 s) (rows outb) ->
  0 <= dc -> 0 <= vc ->
  exists c_in c_out,
    Cost (fst (snd (calculate_total_cost distance w inb outb dc vc))) = Some c_in
    /\ Cost (snd (snd (calculate_total_cost distance w inb outb dc vc))) = Some c_out
    /\ Forall (fun c => 0 <= c) c_in
    /\ Forall (fun c => 0 <= c) c_out
    /\ 0 <= fst (calculate_total_cost distance w inb outb dc vc).
Proof.
  intros Hd Hin Hout Hdc Hvc.
  assert (Hcost : forall d v, 0 <= d -> 0 <= v -> 0 <= shipment_cost d v dc vc).
  { intros d v H1 H2. unfold shipment_cost.
    pose proof (Rmult_le_pos _ _ H1 Hdc). pose proof (Rmult_le_pos _ _ H2 Hvc). lra. }
  destruct (calculate_total_cost_Cost distance w inb outb dc vc) as [Hci Hco].
  assert (Fin : Forall (fun c => 0 <= c)
      (map (fun s => shipment_cost (distance (location s) w) (Volume_m3 s) dc vc) (rows inb))).
  { apply Forall_map. eapply Forall_impl; [|exact Hin]. intros s Hs. now apply Hcost. }
  assert (Fout : Forall (fun c => 0 <= c)
      (map (fun s => shipment_cost (distance w (location s)) (Volume_m3 s) dc vc) (rows outb))).
  { apply Forall_map. eapply Forall_impl; [|exact Hout]. intros s Hs. now apply Hcost. }
  eexists. eexists.
  split; [exact Hci|]. split; [exact Hco|].
  split; [exact Fin|]. split; [exact Fout|].
  rewrite calculate_total_cost_value. unfold objective.
  pose proof (series_sum_nonneg _ Fin). pose proof (series_sum_nonneg _ Fout). lra.
Qed.

Lemma costs_nonnegative_witness :
  (forall a b, 0 <= GreatCircle.distance_km a b)
  /\ Forall (fun s => 0 <= Volume_m3 s) (rows sample_inbound)
  /\ Forall (fun s => 0 <= Volume_m3 s) (rows sample_outbound)
  /\ 0 <= 0.5 /\ 0 <= 10
  /\ exists c_in c_out,
    Cost (fst (snd (calculate_total_cost GreatCircle.distance_km (50, 10)
                      sample_inbound sample_outbound 0.5 10))) = Some c_in
    /\ Cost (snd (snd (calculate_total_cost GreatCircle.distance_km (50, 10)
                         sample_inbound sample_outbound 0.5 10))) = Some c_out
    /\ Forall (fun c => 0 <= c) c_in
    /\ Forall (fun c => 0 <= c) c_out
    /\ 0 <= fst (calculate_total_cost GreatCircle.distance_km (50, 10)
                   sample_inbound sample_outbound 0.5 10).
Proof.
  assert (Hv : Forall (fun s => 0 <= Volume_m3 s) (rows sample_inbound)).
  { repeat constructor. simpl. lra. }
  assert (Hv' : Forall (fun s => 0 <= Volume_m3 s) (rows sample_outbound)).
  { repeat constructor. simpl. lra. }
  split; [exact great_circle_nonneg|].
  split; [exact Hv|]. split; [exact Hv'|].
  split; [lra|]. split; [lra|].
  apply (costs_nonnegative GreatCircle.distance_km (50, 10)
           sample_inbound sample_outbound 0.5 10 great_circle_nonneg Hv Hv'); lra.
Defined.

(** ** The optimization loop *)

Section OptimizerFacts.

Variable distance : point -> point -> R.

Lemma total_cost_default_value w inb outb :
  fst (total_cost_default distance w inb outb) = objective distance (rows inb) (rows outb) default_distance_cost default_volume_cost w.
Proof. apply calculate_total_cost_value. Qed.

Lemma run_Evaluate coords k st :
  run distance (Evaluate coords k) st
  = run distance
      (k (fst (total_cost_default distance coords (st_inbound st) (st_outbound st))))
      {| st_inbound :=
           fst (snd (total_cost_default distance coords (st_inbound st) (st_outbound st)));
         st_outbound :=
           snd (snd (total_cost_default distance coords (st_inbound st) (st_outbound st)));
         cost_history := cost_history st;
         evaluated := evaluated st ++ [coords] |}.
Proof. reflexivity. Qed.

Lemma run_Callback xk k st :
  run distance (Callback xk k) st
  = run distance k
      {| st_inbound :=
           fst (snd (total_cost_default distance xk (st_inbound st) (st_outbound st)));
         st_outbound :=
           snd (snd (total_cost_default distance xk (st_inbound st) (st_outbound st)));
         cost_history :=
           cost_history st
           ++ [fst (total_cost_default distance xk (st_inbound st) (st_outbound st))];
         evaluated := evaluated st ++ [xk] |}.
Proof. reflexivity. Qed.

(** Running the solver on the shared frames is running it against the pure
    objective of the loaded columns: the stored columns never reach the
    returned values. *)
Lemma run_drive (s : solver) : forall (st : state) (rin rout : list shipment),
  rows (st_inbound st) = rin -> rows (st_outbound st) = rout ->
  let f := objective distance rin rout default_distance_cost default_volume_cost in
  fst (run distance s st) = fst (drive f s)
  /\ cost_history (snd (run distance s st)) = cost_history st ++ fst (snd (drive f s))
  /\ evaluated (snd (run distance s st)) = evaluated st ++ snd (snd (drive f s))
  /\ rows (st_inbound (snd (run distance s st))) = rin
  /\ rows (st_outbound (snd (run distance s st))) = rout.
Proof.
  induction s as [result | e | coords k IH | xk k IH];
    intros st rin rout Hin Hout; cbv zeta.
  - simpl. rewrite !app_nil_r. repeat split; assumption.
  - simpl. rewrite !app_nil_r. repeat split; assumption.
  - rewrite run_Evaluate, total_cost_default_value, Hin, Hout.
    match goal with |- context [run distance (k ?v) ?st'] =>
      destruct (IH v st' rin rout Hin Hout) as (H1 & H2 & H3 & H4 & H5)
    end.
    cbv zeta in H1, H2, H3. simpl drive.
    destruct (drive _ (k _)) as [r [h ev]].
    cbn [fst snd cost_history evaluated] in H1, H2, H3 |- *.
    rewrite H1, H2, H3, <- app_assoc. repeat split; assumption.
  - rewrite run_Callback, total_cost_default_value, Hin, Hout.
    match goal with |- context [run distance k ?st'] =>
      destruct (IH st' rin rout Hin Hout) as (H1 & H2 & H3 & H4 & H5)
    end.
    cbv zeta in H1, H2, H3. simpl drive.
    destruct (drive _ k) as [r [h ev]].
    cbn [fst snd cost_history evaluated] in H1, H2, H3 |- *.
    rewrite H1, H2, H3, <- !app_assoc. repeat split; assumption.
Qed.

Lemma stays_in_drive lat_lo lat_hi lon_lo lon_hi f (s : solver) :
  stays_in lat_lo lat_hi lon_lo lon_hi s ->
  Forall (in_box lat_lo lat_hi lon_lo lon_hi) (snd (snd (drive f s))).
Proof.
  induction s as [result | e | coords k IH | xk k IH]; simpl; intros H.
  - constructor.
  - constructor.
  - destruct H as [Hc Hk]. specialize (IH (f coords) (Hk (f coords))).
    destruct (drive f (k (f coords))) as [r [h ev]]. simpl in *.
    now constructor.
  - destruct H as [Hc Hk]. specialize (IH Hk).
    destruct (drive f k) as [r [h ev]]. simpl in *.
    now constructor.
Qed.

Variable minimize : minimizer.

Lemma minimize_call_drive inb outb suppliers customers :
  let d := drive (objective distance (rows inb) (rows outb)
               default_distance_cost default_volume_cost)
             (minimize (initial_guess suppliers customers) (search_bounds suppliers)) in
  let c := minimize_call distance minimize inb outb suppliers customers in
  fst c = fst d
  /\ cost_history (snd c) = fst (snd d)
  /\ evaluated (snd c) = snd (snd d)
  /\ rows (st_inbound (snd c)) = rows inb
  /\ rows (st_outbound (snd c)) = rows outb.
Proof.
  intros d c. subst d c. unfold minimize_call.
  apply (run_drive _ {| st_inbound := inb; st_outbound := outb;
                        cost_history := []; evaluated := [] |} (rows inb) (rows outb));
    reflexivity.
Qed.

Lemma optimize_with_history_unfold inb outb suppliers customers :
  optimize_with_history distance minimize inb outb suppliers customers
  = (match fst (minimize_call distance minimize inb outb suppliers customers) with
     | Returned result =>
         Returned (x result, fun_ result,
                   cost_history (snd (minimize_call distance minimize inb outb
                                        suppliers customers)))
     | Raised e => Raised e
     end,
     snd (minimize_call distance minimize inb outb suppliers customers)).
Proof.
  unfold optimize_with_history.
  now destruct (minimize_call distance minimize inb outb suppliers customers).
Qed.

(** The optimizer is the solver run against the objective: it adds no
    failure path of its own. *)
Lemma optimize_with_history_drive inb outb suppliers customers :
  fst (optimize_with_history distance minimize inb outb suppliers customers)
  = match drive (objective distance (rows inb) (rows outb)
               default_distance_cost default_volume_cost)
            (minimize (initial_guess suppliers customers) (search_bounds suppliers)) with
    | (Returned result, (h, _)) => Returned (x result, fun_ result, h)
    | (Raised e, _) => Raised e
    end.
Proof.
  rewrite optimize_with_history_unfold. simpl fst.
  destruct (minimize_call_drive inb outb suppliers customers) as (H1 & H2 & _).
  cbv zeta in H1, H2. rewrite H1, H2.
  now destruct (drive _ _) as [[result|e] [h ev]].
Qed.

End OptimizerFacts.

(** ** The sample run *)

Lemma sample_initial_guess :
  initial_guess sample_suppliers sample_customers = (Some 50, Some 10).
Proof.
  unfold initial_guess, sample_suppliers, sample_customers. simpl.
  f_equal; f_equal; lra.
Qed.

Lemma sample_search_bounds :
  search_bounds sample_suppliers = ((Some 50, Some 50), (Some 10, Some 10)).
Proof. reflexivity. Qed.

Lemma probe_at_sample (converged : bool) :
  probe_minimize converged (initial_guess sample_suppliers sample_customers)
    (search_bounds sample_suppliers)
  = Evaluate (50, 10) (fun v =>
      Callback (50, 10)
        (Finish {| x := (50, 10); fun_ := v; success := converged; nit := 1 |})).
Proof.
  rewrite sample_initial_guess, sample_search_bounds. unfold probe_minimize.
  rewrite !clip_inside by lra. reflexivity.
Qed.

Lemma sample_objective :
  objective GreatCircle.distance_km (rows sample_inbound) (rows sample_outbound)
    default_distance_cost default_volume_cost (50, 10) = 2000.
Proof.
  unfold objective, shipment_cost, location, default_distance_cost, default_volume_cost.
  simpl. rewrite great_circle_same_point. lra.
Qed.

Lemma probe_sample_call (converged : bool) :
  fst (minimize_call GreatCircle.distance_km (probe_minimize converged)
         sample_inbound sample_outbound sample_suppliers sample_customers)
  = Returned {| x := (50, 10); fun_ := 2000; success := converged; nit := 1 |}.
Proof.
  destruct (minimize_call_drive GreatCircle.distance_km (probe_minimize converged)
              sample_inbound sample_outbound sample_suppliers sample_customers)
    as (H & _).
  cbv zeta in H. rewrite H, probe_at_sample. cbn [drive fst snd].
  now rewrite sample_objective.
Qed.

Lemma probe_sample_run (converged : bool) :
  fst (optimize_with_history GreatCircle.distance_km (probe_minimize converged)
         sample_inbound sample_outbound sample_suppliers sample_customers)
  = Returned ((50, 10), 2000, [2000]).
Proof.
  rewrite optimize_with_history_drive, probe_at_sample. cbn [drive fst snd x fun_].
  now rewrite sample_objective.
Qed.

Lemma probe_respects_bounds (converged : bool) :
  respects_bounds (probe_minimize converged).
Proof.
  intros [[lat|] [lon|]] lat_lo lat_hi lon_lo lon_hi H1 H2; simpl; auto.
  assert (B : in_box lat_lo lat_hi lon_lo lon_hi
                (clip lat lat_lo lat_hi, clip lon lon_lo lon_hi)).
  { split; simpl; now apply clip_in. }
  repeat split; try apply B; auto.
Qed.

(** ** Claims on the optimizer *)

Lemma fixed_box_at_sample (x0 : pyfloat * pyfloat) :
  fixed_box_minimize x0 (search_bounds sample_suppliers)
  = Evaluate (50, 10) (fun v =>
      Finish {| x := (50, 10); fun_ := v; success := true; nit := 0 |}).
Proof.
  rewrite sample_search_bounds. unfold fixed_box_minimize.
  destruct (Req_dec_T 50 50) as [_|N]; [|now elim N].
  destruct (Req_dec_T 10 10) as [_|N]; [|now elim N].
  reflexivity.
Qed.

Lemma fixed_box_sample_run (customers : nodes) :
  fst (optimize_with_history GreatCircle.distance_km fixed_box_minimize
         sample_inbound sample_outbound sample_suppliers customers)
  = Returned ((50, 10), 2000, []).
Proof.
  rewrite optimize_with_history_drive, fixed_box_at_sample.
  cbn [drive fst snd x fun_]. now rewrite sample_objective.
Qed.

(** C2 (as stated) fails: with one supplier, one shipment each way and no
    customer at all, the initial guess is NaN and the run still returns
    coordinates and a cost: the solver, given a box that is a single point,
    evaluates the objective there and returns. *)
Lemma empty_customers_run_returns :
  initial_guess sample_suppliers [] = (None, None)
  /\ fst (optimize_with_history GreatCircle.distance_km fixed_box_minimize
            sample_inbound sample_outbound sample_suppliers [])
     = Returned ((50, 10), 2000, []).
Proof.
  split; [reflexivity | apply fixed_box_sample_run].
Qed.

(** C2 (as amended): when the supplier set or the customer set is empty, and
    both shipment frames have rows, [optimize_with_history] validates nothing:
    it does what the solver does against the objective, started from the
    initial guess with the supplier bounds, returning the solver's point, its
    cost and the recorded history, or raising what the solver raises.  Without
    suppliers the initial guess and the bounds are NaN, without customers the
    initial guess is NaN. *)
Theorem optimize_with_history_validates_nothing
    (distance : point -> point -> R) (minimize : minimizer)
    (inb outb : frame) (suppliers customers : nodes) :
  suppliers = [] \/ customers = [] ->
  rows inb <> [] -> rows outb <> [] ->
  fst (optimize_with_history distance minimize inb outb suppliers customers)
  = match drive (objective distance (rows inb) (rows outb)
                   default_distance_cost default_volume_cost)
            (minimize (initial_guess suppliers customers) (search_bounds suppliers)) with
    | (Returned result, (h, _)) => Returned (x result, fun_ result, h)
    | (Raised e, _) => Raised e
    end
  /\ (suppliers = [] ->
      initial_guess suppliers customers = (None, None)
      /\ search_bounds suppliers = ((None, None), (None, None)))
  /\ (customers = [] -> initial_guess suppliers customers = (None, None)).
Proof.
  intros _ _ _. split; [apply optimize_with_history_drive|].
  split.
  - intros ->. split; reflexivity.
  - intros ->. unfold initial_guess. simpl.
    now destruct (Series.mean (map Latitude suppliers)),
                 (Series.mean (map Longitude suppliers)).
Qed.

Lemma optimize_with_history_validates_nothing_witness :
  (sample_suppliers = [] \/ ([] : nodes) = [])
  /\ rows sample_inbound <> [] /\ rows sample_outbound <> []
  /\ fst (optimize_with_history GreatCircle.distance_km fixed_box_minimize
            sample_inbound sample_outbound sample_suppliers [])
     = match drive (objective GreatCircle.distance_km
                      (rows sample_inbound) (rows sample_outbound)
                      default_distance_cost default_volume_cost)
               (fixed_box_minimize (initial_guess sample_suppliers [])
                  (search_bounds sample_suppliers)) with
       | (Returned result, (h, _)) => Returned (x result, fun_ result, h)
       | (Raised e, _) => Raised e
       end.
Proof.
  assert (H : sample_suppliers = [] \/ ([] : nodes) = []) by (now right).
  assert (Hi : rows sample_inbound <> []) by discriminate.
  assert (Ho : rows sample_outbound <> []) by discriminate.
  split; [exact H|]. split; [exact Hi|]. split; [exact Ho|].
  exact (proj1 (optimize_with_history_validates_nothing GreatCircle.distance_km
                  fixed_box_minimize sample_inbound sample_outbound
                  sample_suppliers [] H Hi Ho)).
Defined.

(** C3 (as stated) fails: a run whose solver reports non-convergence and a run
    whose solver reports convergence return the same value, so the returned
    value carries no mark of non-convergence. *)
Lemma nonconverged_result_not_marked :
  fst (minimize_call GreatCircle.distance_km (probe_minimize false)
         sample_inbound sample_outbound sample_suppliers sample_customers)
  = Returned {| x := (50, 10); fun_ := 2000; success := false; nit := 1 |}
  /\ fst (minimize_call GreatCircle.distance_km (probe_minimize true)
            sample_inbound sample_outbound sample_suppliers sample_customers)
     = Returned {| x := (50, 10); fun_ := 2000; success := true; nit := 1 |}
  /\ fst (optimize_with_history GreatCircle.distance_km (probe_minimize false)
            sample_inbound sample_outbound sample_suppliers sample_customers)
     = fst (optimize_with_history GreatCircle.distance_km (probe_minimize true)
              sample_inbound sample_outbound sample_suppliers sample_customers).
Proof.
  split; [apply probe_sample_call|]. split; [apply probe_sample_call|].
  now rewrite !probe_sample_run.
Qed.

(** C3 (as amended): when the solver finishes with a result that reports
    non-convergence, [optimize_with_history] returns that result's point and
    cost together with the cost history; the returned value depends on these
    three only, so it equals the value returned for any run, converged or not,
    with the same point, cost and history. *)
Theorem nonconverged_result_returned_unmarked
    (distance : point -> point -> R) (minimize : minimizer)
    (inb outb : frame) (suppliers customers : nodes)
    (result : OptimizeResult) (st : state) :
  minimize_call distance minimize inb outb suppliers customers = (Returned result, st) ->
  success result = false ->
  optimize_with_history distance minimize inb outb suppliers customers
  = (Returned (x result, fun_ result, cost_history st), st)
  /\ forall minimize' inb' outb' suppliers' customers' result' st',
       minimize_call distance minimize' inb' outb' suppliers' customers'
       = (Returned result', st') ->
       x result' = x result -> fun_ result' = fun_ result ->
       cost_history st' = cost_history st ->
       fst (optimize_with_history distance minimize' inb' outb' suppliers' customers')
       = fst (optimize_with_history distance minimize inb outb suppliers customers).
Proof.
  intros Hcall _. split.
  - unfold optimize_with_history. now rewrite Hcall.
  - intros minimize' inb' outb' suppliers' customers' result' st' Hcall' Hx Hf Hh.
    unfold optimize_with_history. rewrite Hcall, Hcall'. simpl.
    now rewrite Hx, Hf, Hh.
Qed.

Lemma nonconverged_result_returned_unmarked_witness :
  exists st,
    minimize_call GreatCircle.distance_km (probe_minimize false)
      sample_inbound sample_outbound sample_suppliers sample_customers
    = (Returned {| x := (50, 10); fun_ := 2000; success := false; nit := 1 |}, st)
    /\ optimize_with_history GreatCircle.distance_km (probe_minimize false)
         sample_inbound sample_outbound sample_suppliers sample_customers
       = (Returned ((50, 10), 2000, cost_history st), st).
Proof.
  exists (snd (minimize_call GreatCircle.distance_km (probe_minimize false)
                 sample_inbound sample_outbound sample_suppliers sample_customers)).
  assert (H : minimize_call GreatCircle.distance_km (probe_minimize false)
                sample_inbound sample_outbound sample_suppliers sample_customers
              = (Returned {| x := (50, 10); fun_ := 2000; success := false; nit := 1 |},
                 snd (minimize_call GreatCircle.distance_km (probe_minimize false)
                        sample_inbound sample_outbound sample_suppliers sample_customers))).
  { rewrite <- probe_sample_call. apply surjective_pairing. }
  split; [exact H|].
  exact (proj1 (nonconverged_result_returned_unmarked GreatCircle.distance_km
                  (probe_minimize false) sample_inbound sample_outbound
                  sample_suppliers sample_customers _ _ H eq_refl)).
Defined.

(** C4: for non-empty supplier and customer sets the initial guess handed to
    the solver is the midpoint of the mean supplier location and the mean
    customer location: the average of the two mean latitudes and the average
    of the two mean longitudes. *)
Theorem initial_guess_is_midpoint_of_means (suppliers customers : nodes) :
  suppliers <> [] -> customers <> [] ->
  initial_guess suppliers customers
  = (Some (fst (midpoint (mean_location suppliers) (mean_location customers))),
     Some (snd (midpoint (mean_location suppliers) (mean_location customers))))
  /\ fst (midpoint (mean_location suppliers) (mean_location customers))
     = (arithmetic_mean (map Latitude suppliers)
        + arithmetic_mean (map Latitude customers)) / 2
  /\ snd (midpoint (mean_location suppliers) (mean_location customers))
     = (arithmetic_mean (map Longitude suppliers)
        + arithmetic_mean (map Longitude customers)) / 2
  /\ forall distance minimize inb outb,
       minimize_call distance minimize inb outb suppliers customers
       = run distance
           (minimize
              (Some (fst (midpoint (mean_location suppliers) (mean_location customers))),
               Some (snd (midpoint (mean_location suppliers) (mean_location customers))))
              (search_bounds suppliers))
           {| st_inbound := inb; st_outbound := outb;
              cost_history := []; evaluated := [] |}.
Proof.
  intros Hs Hc.
  assert (G : initial_guess suppliers customers
    = (Some (fst (midpoint (mean_location suppliers) (mean_location customers))),
       Some (snd (midpoint (mean_location suppliers) (mean_location customers))))).
  { unfold initial_guess.
    rewrite !series_mean_nonempty; [reflexivity | | | |];
      intros E; apply map_eq_nil in E; contradiction. }
  split; [exact G|]. split; [reflexivity|]. split; [reflexivity|].
  intros distance minimize inb outb. unfold minimize_call. now rewrite G.
Qed.

Lemma initial_guess_is_midpoint_of_means_witness :
  sample_suppliers <> [] /\ sample_customers <> []
  /\ initial_guess sample_suppliers sample_customers
     = (Some (fst (midpoint (mean_location sample_suppliers)
                            (mean_location sample_customers))),
        Some (snd (midpoint (mean_location sample_suppliers)
                            (mean_location sample_customers)))).
Proof.
  assert (Hs : sample_suppliers <> []) by discriminate.
  assert (Hc : sample_customers <> []) by discriminate.
  split; [exact Hs|]. split; [exact Hc|].
  exact (proj1 (initial_guess_is_midpoint_of_means sample_suppliers sample_customers Hs Hc)).
Defined.

(** C5: with a solver that keeps to the box it is given, every point at which
    the cost function is called during a run has its latitude between the
    least and the greatest supplier latitude and its longitude between the
    least and the greatest supplier longitude; the box is taken from the
    suppliers alone, whatever the customers are. *)
Theorem evaluations_within_supplier_box
    (distance : point -> point -> R) (minimize : minimizer)
    (inb outb : frame) (suppliers customers : nodes) :
  respects_bounds minimize ->
  suppliers <> [] ->
  exists lat_lo lat_hi lon_lo lon_hi,
    is_min lat_lo (map Latitude suppliers)
    /\ is_max lat_hi (map Latitude suppliers)
    /\ is_min lon_lo (map Longitude suppliers)
    /\ is_max lon_hi (map Longitude suppliers)
    /\ search_bounds suppliers = ((Some lat_lo, Some lat_hi), (Some lon_lo, Some lon_hi))
    /\ Forall (in_box lat_lo lat_hi lon_lo lon_hi)
         (evaluated (snd (optimize_with_history distance minimize inb outb
                            suppliers customers))).
Proof.
  intros Hbox Hs.
  destruct suppliers as [|n ns]; [congruence|].
  destruct (Series.min (map Latitude (n :: ns))) as [lat_lo|] eqn:E1; [|discriminate].
  destruct (Series.max (map Latitude (n :: ns))) as [lat_hi|] eqn:E2; [|discriminate].
  destruct (Series.min (map Longitude (n :: ns))) as [lon_lo|] eqn:E3; [|discriminate].
  destruct (Series.max (map Longitude (n :: ns))) as [lon_hi|] eqn:E4; [|discriminate].
  pose proof (series_min_spec _ _ E1) as M1. pose proof (series_max_spec _ _ E2) as M2.
  pose proof (series_min_spec _ _ E3) as M3. pose proof (series_max_spec _ _ E4) as M4.
  exists lat_lo, lat_hi, lon_lo, lon_hi.
  assert (B : search_bounds (n :: ns)
              = ((Some lat_lo, Some lat_hi), (Some lon_lo, Some lon_hi))).
  { unfold search_bounds. now rewrite E1, E2, E3, E4. }
  repeat (split; [assumption|]).
  rewrite optimize_with_history_unfold. cbn [snd].
  destruct (minimize_call_drive distance minimize inb outb (n :: ns) customers)
    as (_ & _ & H & _).
  cbv zeta in H. rewrite H, B.
  apply stays_in_drive, Hbox.
  - destruct M1 as [I _], M2 as [_ U]. now apply U.
  - destruct M3 as [I _], M4 as [_ U]. now apply U.
Qed.

Lemma evaluations_within_supplier_box_witness :
  respects_bounds (probe_minimize true)
  /\ sample_suppliers <> []
  /\ exists lat_lo lat_hi lon_lo lon_hi,
    is_min lat_lo (map Latitude sample_suppliers)
    /\ is_max lat_hi (map Latitude sample_suppliers)
    /\ is_min lon_lo (map Longitude sample_suppliers)
    /\ is_max lon_hi (map Longitude sample_suppliers)
    /\ search_bounds sample_suppliers
       = ((Some lat_lo, Some lat_hi), (Some lon_lo, Some lon_hi))
    /\ Forall (in_box lat_lo lat_hi lon_lo lon_hi)
         (evaluated (snd (optimize_with_history GreatCircle.distance_km
                            (probe_minimize true) sample_inbound sample_outbound
                            sample_suppliers sample_customers))).
Proof.
  assert (Hs : sample_suppliers <> []) by discriminate.
  split; [apply probe_respects_bounds|]. split; [exact Hs|].
  exact (evaluations_within_supplier_box GreatCircle.distance_km (probe_minimize true)
           sample_inbound sample_outbound sample_suppliers sample_customers
           (probe_respects_bounds true) Hs).
Defined.

(** C7: the great-circle distance is symmetric, so a shipment costs the same
    towards the candidate as away from it, and the total does not change when
    the inbound and the outbound shipments change places. *)
Theorem distance_symmetric_direction_irrelevant :
  (forall a b, GreatCircle.distance_km a b = GreatCircle.distance_km b a)
  /\ (forall w s dc vc,
        shipment_cost (GreatCircle.distance_km (location s) w) (Volume_m3 s) dc vc
        = shipment_cost (GreatCircle.distance_km w (location s)) (Volume_m3 s) dc vc)
  /\ (forall w inb outb dc vc,
        fst (calculate_total_cost GreatCircle.distance_km w inb outb dc vc)
        = fst (calculate_total_cost GreatCircle.distance_km w outb inb dc vc)).
Proof.
  split; [exact great_circle_symmetric|].
  assert (S : forall w s dc vc,
        shipment_cost (GreatCircle.distance_km (location s) w) (Volume_m3 s) dc vc
        = shipment_cost (GreatCircle.distance_km w (location s)) (Volume_m3 s) dc vc).
  { intros w s dc vc. now rewrite great_circle_symmetric. }
  split; [exact S|].
  intros w inb outb dc vc. rewrite !calculate_total_cost_value. unfold objective.
  rewrite (map_ext _ _ (fun s => S w s dc vc) (rows inb)).
  rewrite <- (map_ext _ _ (fun s => S w s dc vc) (rows outb)).
  apply Rplus_comm.
Qed.









(** * Further properties *)

(** ** The cost model *)

Lemma series_sum_linear (A : Type) (d v : A -> R) (dc vc : R) (l : list A) :
  Series.sum (map (fun a => shipment_cost (d a) (v a) dc vc) l)
  = dc * Series.sum (map d l) + vc * Series.sum (map v l).
Proof.
  unfold Series.sum, shipment_cost.
  induction l as [|a l IH]; simpl; [lra|].
  rewrite IH. lra.
Qed.

Lemma objective_split (distance : point -> point -> R)
    (inbound outbound : list shipment) (dc vc : R) (w : point) :
  objective distance inbound outbound dc vc w
  = dc * total_distance distance inbound outbound w + vc * total_volume inbound outbound.
Proof.
  unfold objective, total_distance, total_volume.
  rewrite !series_sum_linear. lra.
Qed.

Lemma calculate_total_cost_frames (distance : point -> point -> R)
    (w : point) (inb outb : frame) (dc vc : R) :
  snd (calculate_total_cost distance w inb outb dc vc)
  = (costed distance w dc vc true (rows inb), costed distance w dc vc false (rows outb)).
Proof.
  unfold calculate_total_cost, costed, set_Cost, set_Distance_km, volumes. simpl.
  now rewrite !series_cost_column.
Qed.

Lemma total_distance_nonneg (distance : point -> point -> R)
    (inbound outbound : list shipment) (w : point) :
  (forall a b, 0 <= distance a b) -> 0 <= total_distance distance inbound outbound w.
Proof.
  intros Hd. unfold total_distance.
  assert (H : forall (g : shipment -> R) l, (forall s, 0 <= g s) -> 0 <= Series.sum (map g l)).
  { intros g l Hg. apply series_sum_nonneg, Forall_map, Forall_forall. auto. }
  pose proof (H (fun s => distance (location s) w) inbound (fun s => Hd _ _)).
  pose proof (H (fun s => distance w (location s)) outbound (fun s => Hd _ _)).
  lra.
Qed.

Lemma total_volume_nonneg (inbound outbound : list shipment) :
  Forall (fun s => 0 <= Volume_m3 s) inbound ->
  Forall (fun s => 0 <= Volume_m3 s) outbound ->
  0 <= total_volume inbound outbound.
Proof.
  intros Hi Ho. unfold total_volume.
  pose proof (series_sum_nonneg _ (proj2 (Forall_map _ _ _) Hi)).
  pose proof (series_sum_nonneg _ (proj2 (Forall_map _ _ _) Ho)).
  lra.
Qed.

(** X1: a call of [calculate_total_cost] overwrites what an earlier call
    stored: after a call at one candidate and rates followed by a call at
    another, the frames are those the second call alone would leave, and a
    repeated call with the same arguments leaves the frames as they are. *)
Theorem calculate_total_cost_last_call_wins
    (distance : point -> point -> R) (inb outb : frame)
    (w1 w2 : point) (dc1 vc1 dc2 vc2 : R) :
  let first := calculate_total_cost distance w1 inb outb dc1 vc1 in
  let second := calculate_total_cost distance w2 (fst (snd first)) (snd (snd first)) dc2 vc2 in
  snd second = snd (calculate_total_cost distance w2 inb outb dc2 vc2)
  /\ snd (calculate_total_cost distance w1 (fst (snd first)) (snd (snd first)) dc1 vc1)
     = snd first.
Proof.
  intros first second. subst first second.
  rewrite !calculate_total_cost_frames. split; reflexivity.
Qed.

(** X2: the total splits into a part that depends on the candidate and a part
    that does not: distance rate times the total distance to the candidate,
    plus volume rate times the total volume. *)
Theorem calculate_total_cost_splits
    (distance : point -> point -> R) (w : point) (inb outb : frame) (dc vc : R) :
  fst (calculate_total_cost distance w inb outb dc vc)
  = dc * total_distance distance (rows inb) (rows outb) w
    + vc * total_volume (rows inb) (rows outb).
Proof.
  rewrite calculate_total_cost_value. apply objective_split.
Qed.

(** X3: which of two candidates is cheaper depends neither on the volumes nor
    on the rates: for frames with the same node locations row by row and
    positive distance rates, one candidate costs no more than the other under
    one set of volumes and rates exactly when it does under the other. *)
Theorem cheaper_candidate_ignores_volumes
    (distance : point -> point -> R) (inb outb inb' outb' : frame)
    (dc vc dc' vc' : R) (w1 w2 : point) :
  map location (rows inb') = map location (rows inb) ->
  map location (rows outb') = map location (rows outb) ->
  0 < dc -> 0 < dc' ->
  (fst (calculate_total_cost distance w1 inb outb dc vc)
   <= fst (calculate_total_cost distance w2 inb outb dc vc)
   <-> fst (calculate_total_cost distance w1 inb' outb' dc' vc')
       <= fst (calculate_total_cost distance w2 inb' outb' dc' vc')).
Proof.
  intros Hi Ho Hdc Hdc'.
  rewrite !calculate_total_cost_value, !objective_split.
  assert (E : forall w, total_distance distance (rows inb') (rows outb') w
                        = total_distance distance (rows inb) (rows outb) w).
  { intros w. unfold total_distance.
    rewrite <- (map_map location (fun p => distance p w) (rows inb')).
    rewrite <- (map_map location (fun p => distance w p) (rows outb')).
    rewrite Hi, Ho, !map_map. reflexivity. }
  rewrite !E.
  set (D1 := total_distance distance (rows inb) (rows outb) w1).
  set (D2 := total_distance distance (rows inb) (rows outb) w2).
  split; intros H.
  - assert (D1 <= D2) by nra. nra.
  - assert (D1 <= D2) by nra. nra.
Qed.

Lemma cheaper_candidate_ignores_volumes_witness :
  map location (rows (loaded [mkShipment "Inbound_1"%string 7 50 10]))
  = map location (rows sample_inbound)
  /\ map location (rows (loaded [mkShipment "Outbound_1"%string 0 50 10]))
     = map location (rows sample_outbound)
  /\ 0 < 0.5 /\ 0 < 2
  /\ (fst (calculate_total_cost GreatCircle.distance_km (50, 10)
             sample_inbound sample_outbound 0.5 10)
      <= fst (calculate_total_cost GreatCircle.distance_km (40, 0)
                sample_inbound sample_outbound 0.5 10)
      <-> fst (calculate_total_cost GreatCircle.distance_km (50, 10)
                 (loaded [mkShipment "Inbound_1"%string 7 50 10])
                 (loaded [mkShipment "Outbound_1"%string 0 50 10]) 2 3)
          <= fst (calculate_total_cost GreatCircle.distance_km (40, 0)
                    (loaded [mkShipment "Inbound_1"%string 7 50 10])
                    (loaded [mkShipment "Outbound_1"%string 0 50 10]) 2 3)).
Proof.
  assert (H1 : 0 < 0.5) by lra. assert (H2 : 0 < 2) by lra.
  split; [reflexivity|]. split; [reflexivity|]. split; [exact H1|]. split; [exact H2|].
  exact (cheaper_candidate_ignores_volumes GreatCircle.distance_km
           sample_inbound sample_outbound
           (loaded [mkShipment "Inbound_1"%string 7 50 10])
           (loaded [mkShipment "Outbound_1"%string 0 50 10])
           0.5 10 2 3 (50, 10) (40, 0) eq_refl eq_refl H1 H2).
Defined.

(** X4: the total does not decrease when a rate is raised: with a distance
    that is never negative and volumes that are not negative, a distance rate
    and a volume rate that are both at least as large give a total that is at
    least as large. *)
Theorem total_cost_monotone_in_rates
    (distance : point -> point -> R) (w : point) (inb outb : frame)
    (dc vc dc' vc' : R) :
  (forall a b, 0 <= distance a b) ->
  Forall (fun s => 0 <= Volume_m3 s) (rows inb) ->
  Forall (fun s => 0 <= Volume_m3 s) (rows outb) ->
  dc <= dc' -> vc <= vc' ->
  fst (calculate_total_cost distance w inb outb dc vc)
  <= fst (calculate_total_cost distance w inb outb dc' vc').
Proof.
  intros Hd Hi Ho Hdc Hvc.
  rewrite !calculate_total_cost_value, !objective_split.
  pose proof (total_distance_nonneg distance (rows inb) (rows outb) w Hd).
  pose proof (total_volume_nonneg (rows inb) (rows outb) Hi Ho).
  nra.
Qed.

Lemma total_cost_monotone_in_rates_witness :
  (forall a b, 0 <= GreatCircle.distance_km a b)
  /\ Forall (fun s => 0 <= Volume_m3 s) (rows sample_inbound)
  /\ Forall (fun s => 0 <= Volume_m3 s) (rows sample_outbound)
  /\ 0.5 <= 1 /\ 10 <= 20
  /\ fst (calculate_total_cost GreatCircle.distance_km (40, 0)
            sample_inbound sample_outbound 0.5 10)
     <= fst (calculate_total_cost GreatCircle.distance_km (40, 0)
               sample_inbound sample_outbound 1 20).
Proof.
  assert (Hv : Forall (fun s => 0 <= Volume_m3 s) (rows sample_inbound)).
  { repeat constructor. simpl. lra. }
  assert (Hv' : Forall (fun s => 0 <= Volume_m3 s) (rows sample_outbound)).
  { repeat constructor. simpl. lra. }
  assert (H1 : 0.5 <= 1) by lra. assert (H2 : 10 <= 20) by lra.
  split; [exact great_circle_nonneg|]. split; [exact Hv|]. split; [exact Hv'|].
  split; [exact H1|]. split; [exact H2|].
  exact (total_cost_monotone_in_rates GreatCircle.distance_km (40, 0)
           sample_inbound sample_outbound 0.5 10 1 20
           great_circle_nonneg Hv Hv' H1 H2).
Defined.

(** X5: no candidate costs less than the volume part: with a distance that is
    never negative and a distance rate that is not negative, the total is at
    least volume rate times the total volume, and a candidate at distance 0
    from every node costs exactly that. *)
Theorem total_cost_at_least_volume_part
    (distance : point -> point -> R) (w : point) (inb outb : frame) (dc vc : R) :
  (forall a b, 0 <= distance a b) ->
  0 <= dc ->
  vc * total_volume (rows inb) (rows outb)
  <= fst (calculate_total_cost distance w inb outb dc vc)
  /\ (Forall (fun s => distance (location s) w = 0) (rows inb) ->
      Forall (fun s => distance w (location s) = 0) (rows outb) ->
      fst (calculate_total_cost distance w inb outb dc vc)
      = vc * total_volume (rows inb) (rows outb)).
Proof.
  intros Hd Hdc.
  rewrite !calculate_total_cost_value, !objective_split.
  pose proof (total_distance_nonneg distance (rows inb) (rows outb) w Hd).
  split; [nra|].
  intros Zi Zo.
  assert (Z : total_distance distance (rows inb) (rows outb) w = 0).
  { unfold total_distance.
    assert (G : forall (g : shipment -> R) l,
               Forall (fun s => g s = 0) l -> Series.sum (map g l) = 0).
    { intros g l F. unfold Series.sum.
      induction F as [|s l Hs _ IH]; simpl; [reflexivity|]. rewrite Hs, IH. lra. }
    rewrite (G _ _ Zi), (G _ _ Zo). lra. }
  rewrite Z. lra.
Qed.

Lemma total_cost_at_least_volume_part_witness :
  (forall a b, 0 <= GreatCircle.distance_km a b)
  /\ 0 <= 0.5
  /\ 10 * total_volume (rows sample_inbound) (rows sample_outbound)
     <= fst (calculate_total_cost GreatCircle.distance_km (40, 0)
               sample_inbound sample_outbound 0.5 10).
Proof.
  assert (H1 : 0 <= 0.5) by lra.
  split; [exact great_circle_nonneg|]. split; [exact H1|].
  exact (proj1 (total_cost_at_least_volume_part GreatCircle.distance_km (40, 0)
                  sample_inbound sample_outbound 0.5 10 great_circle_nonneg H1)).
Defined.

(** ** The optimizer *)

Lemma drive_history (f : point -> R) (s : solver) :
  fst (snd (drive f s)) = map f (iterates f s).
Proof.
  induction s as [result | e | coords k IH | xk k IH]; simpl; try reflexivity.
  - specialize (IH (f coords)).
    destruct (drive f (k (f coords))) as [r [h ev]]. exact IH.
  - destruct (drive f k) as [r [h ev]]. simpl in *. now rewrite IH.
Qed.

Lemma run_frames (distance : point -> point -> R) (s : solver) : forall st : state,
  (evaluated (snd (run distance s st)) = evaluated st
   /\ st_inbound (snd (run distance s st)) = st_inbound st
   /\ st_outbound (snd (run distance s st)) = st_outbound st)
  \/ (exists l p,
        evaluated (snd (run distance s st)) = evaluated st ++ l ++ [p]
        /\ st_inbound (snd (run distance s st))
           = costed distance p default_distance_cost default_volume_cost true
               (rows (st_inbound st))
        /\ st_outbound (snd (run distance s st))
           = costed distance p default_distance_cost default_volume_cost false
               (rows (st_outbound st))).
Proof.
  induction s as [result | e | coords k IH | xk k IH]; intros st.
  - left. simpl. auto.
  - left. simpl. auto.
  - right. rewrite run_Evaluate.
    match goal with |- context [run distance (k ?v) ?st'] =>
      destruct (IH v st') as [(E & I & O) | (l & p & E & I & O)]
    end; cbn [evaluated st_inbound st_outbound] in E, I, O.
    + exists [], coords. rewrite E, I, O. unfold total_cost_default.
      rewrite calculate_total_cost_frames. auto.
    + exists (coords :: l), p. rewrite E, I, O, <- app_assoc.
      unfold total_cost_default. rewrite calculate_total_cost_frames. auto.
  - right. rewrite run_Callback.
    match goal with |- context [run distance k ?st'] =>
      destruct (IH st') as [(E & I & O) | (l & p & E & I & O)]
    end; cbn [evaluated st_inbound st_outbound] in E, I, O.
    + exists [], xk. rewrite E, I, O. unfold total_cost_default.
      rewrite calculate_total_cost_frames. auto.
    + exists (xk :: l), p. rewrite E, I, O, <- app_assoc.
      unfold total_cost_default. rewrite calculate_total_cost_frames. auto.
Qed.

Lemma sum_between (lo hi : R) (l : list R) :
  Forall (fun v => lo <= v <= hi) l ->
  INR (List.length l) * lo <= Series.sum l <= INR (List.length l) * hi.
Proof.
  unfold Series.sum.
  induction 1 as [|v l Hv _ IH].
  - simpl. lra.
  - cbn [List.length fold_right]. rewrite S_INR. lra.
Qed.

Lemma mean_between (lo hi : R) (l : list R) :
  l <> [] -> Forall (fun v => lo <= v <= hi) l -> lo <= arithmetic_mean l <= hi.
Proof.
  intros Hl F. unfold arithmetic_mean.
  assert (Hn : 0 < INR (List.length l)).
  { apply lt_0_INR. destruct l; [congruence | simpl; lia]. }
  destruct (sum_between lo hi l F) as [H1 H2].
  split.
  - apply Rmult_le_reg_r with (INR (List.length l)); [exact Hn|].
    unfold Rdiv. rewrite Rmult_assoc, Rinv_l by lra. lra.
  - apply Rmult_le_reg_r with (INR (List.length l)); [exact Hn|].
    unfold Rdiv. rewrite Rmult_assoc, Rinv_l by lra. lra.
Qed.

Lemma mean_app_same_length (a b : list R) :
  a <> [] -> List.length a = List.length b ->
  arithmetic_mean (a ++ b) = (arithmetic_mean a + arithmetic_mean b) / 2.
Proof.
  intros Ha Hl. unfold arithmetic_mean.
  rewrite series_sum_app, length_app, <- Hl, plus_INR.
  assert (Hn : 0 < INR (List.length a)).
  { apply lt_0_INR. destruct a; [congruence | simpl; lia]. }
  field. lra.
Qed.

(** X6: the cost history holds one entry per iterate the solver reports to
    the callback, in order, and each entry is the total cost with the default
    rates at that iterate; a run that returns hands back this same list. *)
Theorem cost_history_records_iterates
    (distance : point -> point -> R) (minimize : minimizer)
    (inb outb : frame) (suppliers customers : nodes) :
  let reported :=
    iterates (objective distance (rows inb) (rows outb)
                default_distance_cost default_volume_cost)
      (minimize (initial_guess suppliers customers) (search_bounds suppliers)) in
  let run_ := optimize_with_history distance minimize inb outb suppliers customers in
  cost_history (snd run_)
  = map (fun xk => fst (total_cost_default distance xk inb outb)) reported
  /\ List.length (cost_history (snd run_)) = List.length reported
  /\ match fst run_ with
     | Returned (_, _, history) => history = cost_history (snd run_)
     | Raised _ => True
     end.
Proof.
  intros reported run_.
  assert (H : cost_history (snd run_)
              = map (fun xk => fst (total_cost_default distance xk inb outb)) reported).
  { subst run_ reported. rewrite optimize_with_history_unfold. cbn [snd].
    destruct (minimize_call_drive distance minimize inb outb suppliers customers)
      as (_ & H & _).
    cbv zeta in H. rewrite H, drive_history.
    apply map_ext. intros xk. now rewrite total_cost_default_value. }
  split; [exact H|]. split; [rewrite H; apply length_map|].
  subst run_. rewrite optimize_with_history_unfold. cbn [fst snd].
  now destruct (fst (minimize_call distance minimize inb outb suppliers customers)).
Qed.

(** X7: a run leaves on both frames the "Distance_km" and "Cost" columns of
    the last point at which the cost function was called, with the default
    rates; a run that never calls the cost function leaves the frames as they
    were. *)
Theorem frames_hold_last_evaluation
    (distance : point -> point -> R) (minimize : minimizer)
    (inb outb : frame) (suppliers customers : nodes) :
  let st := snd (optimize_with_history distance minimize inb outb suppliers customers) in
  match rev (evaluated st) with
  | [] => st_inbound st = inb /\ st_outbound st = outb
  | p :: _ =>
      st_inbound st
      = costed distance p default_distance_cost default_volume_cost true (rows inb)
      /\ st_outbound st
         = costed distance p default_distance_cost default_volume_cost false (rows outb)
  end.
Proof.
  intros st. subst st. rewrite optimize_with_history_unfold. cbn [snd].
  unfold minimize_call.
  match goal with |- context [run distance ?s ?st0] =>
    destruct (run_frames distance s st0) as [(E & I & O) | (l & p & E & I & O)]
  end; cbn [evaluated st_inbound st_outbound] in E, I, O.
  - rewrite E. simpl. auto.
  - rewrite E. cbn [app]. rewrite rev_app_distr. simpl. auto.
Qed.

(** X8: with a single supplier the box is that supplier's location, so a
    solver that keeps to its box calls the cost function at that location
    only, whatever the customers and the shipments are. *)
Theorem single_supplier_pins_the_search
    (distance : point -> point -> R) (minimize : minimizer)
    (inb outb : frame) (supplier : node) (customers : nodes) :
  respects_bounds minimize ->
  Forall (fun p => p = (Latitude supplier, Longitude supplier))
    (evaluated (snd (optimize_with_history distance minimize inb outb
                       [supplier] customers))).
Proof.
  intros Hbox.
  rewrite optimize_with_history_unfold. cbn [snd].
  destruct (minimize_call_drive distance minimize inb outb [supplier] customers)
    as (_ & _ & H & _).
  cbv zeta in H. rewrite H.
  change (search_bounds [supplier])
    with ((Some (Latitude supplier), Some (Latitude supplier)),
          (Some (Longitude supplier), Some (Longitude supplier))).
  eapply Forall_impl; [|apply stays_in_drive, Hbox; lra].
  intros [lat lon] [[H1 H2] [H3 H4]]. simpl in *. f_equal; lra.
Qed.

Lemma single_supplier_pins_the_search_witness :
  respects_bounds (probe_minimize true)
  /\ Forall (fun p => p = (50, 10))
       (evaluated (snd (optimize_with_history GreatCircle.distance_km
                          (probe_minimize true) sample_inbound sample_outbound
                          [mkNode "S1"%string 50 10] [mkNode "C1"%string 40 0]))).
Proof.
  split; [apply probe_respects_bounds|].
  exact (single_supplier_pins_the_search GreatCircle.distance_km (probe_minimize true)
           sample_inbound sample_outbound (mkNode "S1"%string 50 10)
           [mkNode "C1"%string 40 0] (probe_respects_bounds true)).
Defined.

(** X9: the initial guess lies inside the search box when every customer
    does: for non-empty sets whose customers all have their latitude and
    longitude within the supplier bounds, both coordinates of the initial
    guess are within those bounds. *)
Theorem initial_guess_within_bounds (suppliers customers : nodes)
    (lat_lo lat_hi lon_lo lon_hi : R) :
  customers <> [] ->
  search_bounds suppliers = ((Some lat_lo, Some lat_hi), (Some lon_lo, Some lon_hi)) ->
  Forall (fun c => in_box lat_lo lat_hi lon_lo lon_hi (Latitude c, Longitude c))
    customers ->
  exists lat lon,
    initial_guess suppliers customers = (Some lat, Some lon)
    /\ in_box lat_lo lat_hi lon_lo lon_hi (lat, lon).
Proof.
  intros Hc Hb Hin.
  assert (Hs : suppliers <> []) by (intros ->; discriminate Hb).
  unfold search_bounds in Hb. injection Hb as E1 E2 E3 E4.
  pose proof (series_min_spec _ _ E1) as [_ M1].
  pose proof (series_max_spec _ _ E2) as [_ M2].
  pose proof (series_min_spec _ _ E3) as [_ M3].
  pose proof (series_max_spec _ _ E4) as [_ M4].
  assert (Ns : forall f : node -> R, map f suppliers <> []).
  { intros f E. apply map_eq_nil in E. contradiction. }
  assert (Nc : forall f : node -> R, map f customers <> []).
  { intros f E. apply map_eq_nil in E. contradiction. }
  assert (B1 : lat_lo <= arithmetic_mean (map Latitude suppliers) <= lat_hi).
  { apply mean_between; [apply Ns|]. apply Forall_forall. intros v Hv. split; auto. }
  assert (B2 : lon_lo <= arithmetic_mean (map Longitude suppliers) <= lon_hi).
  { apply mean_between; [apply Ns|]. apply Forall_forall. intros v Hv. split; auto. }
  assert (B3 : lat_lo <= arithmetic_mean (map Latitude customers) <= lat_hi).
  { apply mean_between; [apply Nc|]. apply Forall_map.
    eapply Forall_impl; [|exact Hin]. intros c [H _]. exact H. }
  assert (B4 : lon_lo <= arithmetic_mean (map Longitude customers) <= lon_hi).
  { apply mean_between; [apply Nc|]. apply Forall_map.
    eapply Forall_impl; [|exact Hin]. intros c [_ H]. exact H. }
  unfold initial_guess. rewrite !series_mean_nonempty by auto.
  eexists. eexists. split; [reflexivity|].
  split; simpl; lra.
Qed.

Lemma initial_guess_within_bounds_witness :
  sample_customers <> []
  /\ search_bounds sample_suppliers = ((Some 50, Some 50), (Some 10, Some 10))
  /\ Forall (fun c => in_box 50 50 10 10 (Latitude c, Longitude c)) sample_customers
  /\ exists lat lon,
       initial_guess sample_suppliers sample_customers = (Some lat, Some lon)
       /\ in_box 50 50 10 10 (lat, lon).
Proof.
  assert (Hc : sample_customers <> []) by discriminate.
  assert (Hin : Forall (fun c => in_box 50 50 10 10 (Latitude c, Longitude c))
                  sample_customers).
  { repeat constructor; simpl; lra. }
  split; [exact Hc|]. split; [reflexivity|]. split; [exact Hin|].
  exact (initial_guess_within_bounds sample_suppliers sample_customers 50 50 10 10
           Hc eq_refl Hin).
Defined.

(** X10: when there are as many customers as suppliers, the initial guess is
    the centroid of all nodes: the mean latitude and the mean longitude of the
    suppliers and customers taken together. *)
Theorem initial_guess_is_centroid_for_equal_sizes (suppliers customers : nodes) :
  suppliers <> [] ->
  List.length suppliers = List.length customers ->
  initial_guess suppliers customers
  = (Some (arithmetic_mean (map Latitude (suppliers ++ customers))),
     Some (arithmetic_mean (map Longitude (suppliers ++ customers)))).
Proof.
  intros Hs Hl.
  assert (Hc : customers <> []).
  { intros ->. destruct suppliers; [congruence | discriminate Hl]. }
  assert (N : forall (f : node -> R) l, l <> [] -> map f l <> []).
  { intros f l H E. apply map_eq_nil in E. contradiction. }
  unfold initial_guess. rewrite !series_mean_nonempty by auto.
  rewrite !map_app, !mean_app_same_length by (auto; now rewrite !length_map).
  reflexivity.
Qed.

Lemma initial_guess_is_centroid_for_equal_sizes_witness :
  sample_suppliers <> []
  /\ List.length sample_suppliers = List.length sample_customers
  /\ initial_guess sample_suppliers sample_customers
     = (Some (arithmetic_mean (map Latitude (sample_suppliers ++ sample_customers))),
        Some (arithmetic_mean (map Longitude (sample_suppliers ++ sample_customers)))).
Proof.
  assert (Hs : sample_suppliers <> []) by discriminate.
  split; [exact Hs|]. split; [reflexivity|].
  exact (initial_guess_is_centroid_for_equal_sizes sample_suppliers sample_customers
           Hs eq_refl).
Defined.

(** X18: the result of a run does not depend on the columns an earlier run
    stored: running again, with the same solver, on the frames a first run
    left behind returns the same coordinates, the same cost and the same cost
    history as the first run. *)
Theorem rerun_on_left_frames_same_result
    (distance : point -> point -> R) (minimize : minimizer)
    (inb outb : frame) (suppliers customers : nodes) :
  let first := optimize_with_history distance minimize inb outb suppliers customers in
  let second := optimize_with_history distance minimize
                  (st_inbound (snd first)) (st_outbound (snd first))
                  suppliers customers in
  fst second = fst first.
Proof.
  intros first second. subst second.
  rewrite optimize_with_history_drive.
  assert (R1 : rows (st_inbound (snd first)) = rows inb
               /\ rows (st_outbound (snd first)) = rows outb).
  { subst first. rewrite optimize_with_history_unfold. cbn [snd].
    destruct (minimize_call_drive distance minimize inb outb suppliers customers)
      as (_ & _ & _ & H4 & H5).
    split; assumption. }
  destruct R1 as [-> ->].
  subst first. now rewrite optimize_with_history_drive.
Qed.

(** ** Loading the data *)

Lemma matches_none (key : string) (right : nodes) :
  ~ In key (map Node_ID right) -> matches key right = [].
Proof.
  unfold matches. induction right as [|n right IH]; simpl; intros H; [reflexivity|].
  destruct (String.eqb_spec key (Node_ID n)) as [E|E].
  - exfalso. apply H. left. now symmetry.
  - apply IH. intros I. apply H. now right.
Qed.

Lemma matches_some (key : string) (right : nodes) :
  In key (map Node_ID right) -> matches key right <> [].
Proof.
  unfold matches. intros H. apply in_map_iff in H. destruct H as (n & E & I).
  assert (F : In n (filter (fun n => String.eqb key (Node_ID n)) right)).
  { apply filter_In. split; [exact I|]. apply String.eqb_eq. now symmetry. }
  intros Z. rewrite Z in F. exact F.
Qed.

Lemma matches_sound (key : string) (right : nodes) (n : node) :
  In n (matches key right) -> In n right /\ Node_ID n = key.
Proof.
  unfold matches. intros H. apply filter_In in H. destruct H as [I E].
  apply String.eqb_eq in E. auto.
Qed.

Lemma matches_unique (key : string) (right : nodes) :
  NoDup (map Node_ID right) ->
  matches key right = [] \/ exists n, matches key right = [n].
Proof.
  induction right as [|n right IH]; intros ND; [now left|].
  inversion ND as [|id ids Hn ND']; subst.
  unfold matches. simpl.
  destruct (String.eqb_spec key (Node_ID n)) as [E|E].
  - right. exists n. f_equal. apply matches_none. now rewrite E.
  - apply IH, ND'.
Qed.

Lemma merge_left_length (left_on : shipment_record -> string)
    (left : list shipment_record) (right : nodes) :
  List.length (merge_left left_on left right)
  = list_sum (map (fun r => Nat.max 1 (List.length (matches (left_on r) right))) left).
Proof.
  unfold merge_left.
  induction left as [|r left IH]; [reflexivity|].
  cbn [flat_map]. rewrite length_app, IH, map_cons. cbn [list_sum]. f_equal.
  destruct (matches (left_on r) right) as [|n ns]; [reflexivity|].
  rewrite length_map. reflexivity.
Qed.

Lemma merge_left_columns (left_on : shipment_record -> string)
    (left : list shipment_record) (right : nodes) (m : merged_row) :
  In m (merge_left left_on left right) ->
  exists r, In r left
    /\ M_Shipment_ID m = Rec_Shipment_ID r /\ M_Origin m = Origin r
    /\ M_Destination m = Destination r /\ M_Volume_m3 m = Rec_Volume_m3 r.
Proof.
  unfold merge_left. intros H. apply in_flat_map in H. destruct H as (r & I & H).
  exists r. split; [exact I|].
  destruct (matches (left_on r) right) as [|n ns].
  - destruct H as [<-|[]]. simpl. auto.
  - apply in_map_iff in H. destruct H as (n' & <- & _). simpl. auto.
Qed.

Lemma merge_left_keeps (left_on : shipment_record -> string)
    (left : list shipment_record) (right : nodes) (r : shipment_record) :
  In r left ->
  exists m, In m (merge_left left_on left right)
    /\ M_Shipment_ID m = Rec_Shipment_ID r /\ M_Origin m = Origin r
    /\ M_Destination m = Destination r /\ M_Volume_m3 m = Rec_Volume_m3 r.
Proof.
  unfold merge_left. intros I.
  destruct (matches (left_on r) right) as [|n ns] eqn:E.
  - exists (unjoined r). split; [|simpl; auto].
    apply in_flat_map. exists r. split; [exact I|]. rewrite E. now left.
  - exists (joined r n). split; [|simpl; auto].
    apply in_flat_map. exists r. split; [exact I|]. rewrite E. now left.
Qed.

Lemma merge_left_unjoined (left_on : shipment_record -> string)
    (left : list shipment_record) (right : nodes) (r : shipment_record) :
  In r left -> ~ In (left_on r) (map Node_ID right) ->
  In (unjoined r) (merge_left left_on left right).
Proof.
  unfold merge_left. intros I N.
  apply in_flat_map. exists r. split; [exact I|].
  rewrite (matches_none _ _ N). now left.
Qed.

Lemma merge_left_one_to_one (left_on : shipment_record -> string)
    (left : list shipment_record) (right : nodes) :
  NoDup (map Node_ID right) ->
  Forall (fun r => In (left_on r) (map Node_ID right)) left ->
  Forall2 (fun r m => exists n, In n right /\ Node_ID n = left_on r /\ m = joined r n)
    left (merge_left left_on left right).
Proof.
  intros ND. unfold merge_left.
  induction 1 as [|r left Hr _ IH]; simpl; [constructor|].
  destruct (matches_unique (left_on r) right ND) as [E|[n E]].
  - exfalso. exact (matches_some _ _ Hr E).
  - rewrite E. simpl. constructor; [|exact IH].
    exists n. destruct (matches_sound (left_on r) right n) as [I K].
    { rewrite E. now left. }
    auto.
Qed.

Lemma cost_rows_nan (l : list merged_row) (m : merged_row) :
  In m l -> M_Latitude m = None -> cost_rows l = None.
Proof.
  induction l as [|a l IH]; intros I N; [destruct I|].
  simpl. destruct I as [->|I].
  - now rewrite N.
  - rewrite (IH I N). now destruct (M_Latitude a), (M_Longitude a).
Qed.

Lemma cost_rows_joined (right : nodes) (left_on : shipment_record -> string)
    (left : list shipment_record) (l : list merged_row) :
  Forall2 (fun r m => exists n, In n right /\ Node_ID n = left_on r /\ m = joined r n)
    left l ->
  exists rws,
    cost_rows l = Some rws
    /\ Forall2 (fun r s => Shipment_ID s = Rec_Shipment_ID r
                           /\ Volume_m3 s = Rec_Volume_m3 r
                           /\ exists n, In n right /\ Node_ID n = left_on r
                                        /\ location s = (Latitude n, Longitude n))
         left rws.
Proof.
  induction 1 as [|r m left l (n & I & K & ->) _ (rws & E & F)].
  - exists []. split; [reflexivity | constructor].
  - eexists. simpl. rewrite E. split; [reflexivity|].
    constructor; [|exact F]. simpl. repeat split. exists n. auto.
Qed.

(** X11: loading keeps every shipment into the warehouse and nothing else in
    the inbound frame, and likewise for shipments out of the warehouse: every
    merged row comes from a shipment on that side with its identifier, origin,
    destination and volume unchanged, and every such shipment has a row,
    whether or not its supplier or customer is known. *)
Theorem load_keeps_the_warehouse_shipments
    (suppliers customers : nodes) (shipments : list shipment_record) :
  let '(inbound, outbound, _, _) := load_and_prepare_data suppliers customers shipments in
  (forall m, In m inbound ->
     M_Destination m = "Warehouse"%string
     /\ exists r, In r shipments /\ M_Shipment_ID m = Rec_Shipment_ID r
                  /\ M_Origin m = Origin r /\ M_Volume_m3 m = Rec_Volume_m3 r)
  /\ (forall m, In m outbound ->
        M_Origin m = "Warehouse"%string
        /\ exists r, In r shipments /\ M_Shipment_ID m = Rec_Shipment_ID r
                     /\ M_Destination m = Destination r
                     /\ M_Volume_m3 m = Rec_Volume_m3 r)
  /\ (forall r, In r shipments -> Destination r = "Warehouse"%string ->
        exists m, In m inbound /\ M_Shipment_ID m = Rec_Shipment_ID r
                  /\ M_Origin m = Origin r /\ M_Volume_m3 m = Rec_Volume_m3 r)
  /\ (forall r, In r shipments -> Origin r = "Warehouse"%string ->
        exists m, In m outbound /\ M_Shipment_ID m = Rec_Shipment_ID r
                  /\ M_Destination m = Destination r
                  /\ M_Volume_m3 m = Rec_Volume_m3 r).
Proof.
  unfold load_and_prepare_data. repeat split.
  - apply merge_left_columns in H. destruct H as (r & I & _ & _ & D & _).
    apply filter_In in I. destruct I as [_ E]. apply String.eqb_eq in E. congruence.
  - apply merge_left_columns in H. destruct H as (r & I & S & O & _ & V).
    apply filter_In in I. exists r. tauto.
  - apply merge_left_columns in H. destruct H as (r & I & _ & O & _ & _).
    apply filter_In in I. destruct I as [_ E]. apply String.eqb_eq in E. congruence.
  - apply merge_left_columns in H. destruct H as (r & I & S & _ & D & V).
    apply filter_In in I. exists r. tauto.
  - intros r I E.
    destruct (merge_left_keeps Origin
                (filter (fun r => String.eqb (Destination r) "Warehouse") shipments)
                suppliers r) as (m & Im & S & O & _ & V).
    { apply filter_In. split; [exact I|]. now apply String.eqb_eq. }
    exists m. auto.
  - intros r I E.
    destruct (merge_left_keeps Destination
                (filter (fun r => String.eqb (Origin r) "Warehouse") shipments)
                customers r) as (m & Im & S & _ & D & V).
    { apply filter_In. split; [exact I|]. now apply String.eqb_eq. }
    exists m. auto.
Qed.

(** X12: an inbound shipment whose origin is in no supplier row is kept by the
    left join with NaN in the supplier columns, so the inbound frame then has
    a NaN coordinate. *)
Theorem unknown_supplier_gives_nan_row
    (suppliers customers : nodes) (shipments : list shipment_record)
    (r : shipment_record) :
  In r shipments ->
  Destination r = "Warehouse"%string ->
  ~ In (Origin r) (map Node_ID suppliers) ->
  let '(inbound, _, _, _) := load_and_prepare_data suppliers customers shipments in
  In (unjoined r) inbound /\ cost_rows inbound = None.
Proof.
  intros I D N. unfold load_and_prepare_data.
  assert (U : In (unjoined r)
                (merge_left Origin
                   (filter (fun r => String.eqb (Destination r) "Warehouse") shipments)
                   suppliers)).
  { apply merge_left_unjoined; [|exact N].
    apply filter_In. split; [exact I|]. now apply String.eqb_eq. }
  split; [exact U|]. now apply (cost_rows_nan _ _ U).
Qed.

Lemma unknown_supplier_gives_nan_row_witness :
  In (mkRecord "Inbound_1" "S9" "Warehouse" 100) [mkRecord "Inbound_1" "S9" "Warehouse" 100]
  /\ Destination (mkRecord "Inbound_1" "S9" "Warehouse" 100) = "Warehouse"%string
  /\ ~ In (Origin (mkRecord "Inbound_1" "S9" "Warehouse" 100))
          (map Node_ID sample_suppliers)
  /\ let '(inbound, _, _, _) :=
       load_and_prepare_data sample_suppliers sample_customers
         [mkRecord "Inbound_1" "S9" "Warehouse" 100] in
     In (unjoined (mkRecord "Inbound_1" "S9" "Warehouse" 100)) inbound
     /\ cost_rows inbound = None.
Proof.
  assert (I : In (mkRecord "Inbound_1" "S9" "Warehouse" 100)
                [mkRecord "Inbound_1" "S9" "Warehouse" 100]) by (now left).
  assert (N : ~ In (Origin (mkRecord "Inbound_1" "S9" "Warehouse" 100))
                   (map Node_ID sample_suppliers)).
  { simpl. intros [E|[]]. discriminate E. }
  split; [exact I|]. split; [reflexivity|]. split; [exact N|].
  exact (unknown_supplier_gives_nan_row sample_suppliers sample_customers
           [mkRecord "Inbound_1" "S9" "Warehouse" 100]
           (mkRecord "Inbound_1" "S9" "Warehouse" 100) I eq_refl N).
Defined.

(** X13: when the supplier identifiers are pairwise distinct and every inbound
    shipment names a supplier of the table, the inbound frame has exactly one
    row per inbound shipment, in the order of shipments.csv, with that
    shipment's identifier and volume and its supplier's coordinates, and no
    NaN. *)
Theorem load_joins_one_row_per_shipment
    (suppliers customers : nodes) (shipments : list shipment_record) :
  NoDup (map Node_ID suppliers) ->
  Forall (fun r => Destination r = "Warehouse"%string ->
                   In (Origin r) (map Node_ID suppliers)) shipments ->
  let '(inbound, _, _, _) := load_and_prepare_data suppliers customers shipments in
  exists rws,
    cost_rows inbound = Some rws
    /\ Forall2 (fun r s => Shipment_ID s = Rec_Shipment_ID r
                           /\ Volume_m3 s = Rec_Volume_m3 r
                           /\ exists n, In n suppliers /\ Node_ID n = Origin r
                                        /\ location s = (Latitude n, Longitude n))
         (filter (fun r => String.eqb (Destination r) "Warehouse") shipments) rws.
Proof.
  intros ND K. unfold load_and_prepare_data.
  apply cost_rows_joined, merge_left_one_to_one; [exact ND|].
  apply Forall_forall. intros r I. apply filter_In in I. destruct I as [I E].
  apply String.eqb_eq in E. rewrite Forall_forall in K. auto.
Qed.

Lemma load_joins_one_row_per_shipment_witness :
  NoDup (map Node_ID sample_suppliers)
  /\ Forall (fun r => Destination r = "Warehouse"%string ->
                      In (Origin r) (map Node_ID sample_suppliers))
       [mkRecord "Inbound_1" "S1" "Warehouse" 100]
  /\ let '(inbound, _, _, _) :=
       load_and_prepare_data sample_suppliers sample_customers
         [mkRecord "Inbound_1" "S1" "Warehouse" 100] in
     exists rws,
       cost_rows inbound = Some rws
       /\ Forall2 (fun r s => Shipment_ID s = Rec_Shipment_ID r
                              /\ Volume_m3 s = Rec_Volume_m3 r
                              /\ exists n, In n sample_suppliers /\ Node_ID n = Origin r
                                           /\ location s = (Latitude n, Longitude n))
            (filter (fun r => String.eqb (Destination r) "Warehouse")
               [mkRecord "Inbound_1" "S1" "Warehouse" 100]) rws.
Proof.
  assert (ND : NoDup (map Node_ID sample_suppliers)).
  { simpl. constructor; [intros [] | constructor]. }
  assert (K : Forall (fun r => Destination r = "Warehouse"%string ->
                               In (Origin r) (map Node_ID sample_suppliers))
                [mkRecord "Inbound_1" "S1" "Warehouse" 100]).
  { constructor; [|constructor]. intros _. now left. }
  split; [exact ND|]. split; [exact K|].
  exact (load_joins_one_row_per_shipment sample_suppliers sample_customers
           [mkRecord "Inbound_1" "S1" "Warehouse" 100] ND K).
Defined.

(** X14: the left join makes one inbound row per supplier row that carries the
    shipment's origin, and one row when there is none: the inbound frame has
    as many rows as the sum, over the inbound shipments, of the larger of 1
    and the number of supplier rows with that identifier, so it is never
    shorter than the list of inbound shipments; likewise for the outbound
    frame and the customer rows. *)
Theorem load_row_count
    (suppliers customers : nodes) (shipments : list shipment_record) :
  let '(inbound, outbound, _, _) := load_and_prepare_data suppliers customers shipments in
  List.length inbound
  = list_sum (map (fun r => Nat.max 1 (List.length (matches (Origin r) suppliers)))
                (filter (fun r => String.eqb (Destination r) "Warehouse") shipments))
  /\ List.length outbound
     = list_sum (map (fun r => Nat.max 1 (List.length (matches (Destination r) customers)))
                   (filter (fun r => String.eqb (Origin r) "Warehouse") shipments))
  /\ (List.length (filter (fun r => String.eqb (Destination r) "Warehouse") shipments)
      <= List.length inbound)%nat
  /\ (List.length (filter (fun r => String.eqb (Origin r) "Warehouse") shipments)
      <= List.length outbound)%nat.
Proof.
  unfold load_and_prepare_data. rewrite !merge_left_length.
  assert (G : forall (g : shipment_record -> nat) l,
             (List.length l <= list_sum (map (fun r => Nat.max 1 (g r)) l))%nat).
  { intros g l. unfold list_sum.
    induction l as [|r l IH]; cbn [map fold_right List.length]; lia. }
  repeat split; apply G.
Qed.

(** ** Generating the data *)

Lemma decimal_inj (i j : nat) : decimal i = decimal j -> i = j.
Proof.
  unfold decimal. intros H.
  apply (f_equal NilEmpty.uint_of_string) in H.
  rewrite !NilEmpty.usu in H. injection H as H.
  now apply DecimalNat.Unsigned.to_uint_inj.
Qed.

Lemma append_inv_head (p a b : string) : (p ++ a)%string = (p ++ b)%string -> a = b.
Proof.
  induction p as [|c p IH]; simpl; intros H; [exact H|].
  injection H as H. auto.
Qed.

Lemma combine_fst_NoDup (A B : Type) (l1 : list A) (l2 : list B) :
  NoDup l1 -> NoDup (map fst (combine l1 l2)).
Proof.
  intros ND. revert l2.
  induction ND as [|a l1 Ha ND IH]; intros [|b l2]; simpl; try constructor.
  - intros I. apply in_map_iff in I. destruct I as ([a' b'] & E & I). simpl in E. subst a'.
    apply in_combine_l in I. contradiction.
  - apply IH.
Qed.

Lemma map_inj_NoDup (A B : Type) (f : A -> B) (l : list A) :
  (forall a b, f a = f b -> a = b) -> NoDup l -> NoDup (map f l).
Proof.
  intros Hf. induction 1 as [|a l Ha _ IH]; simpl; constructor; [|exact IH].
  intros I. apply in_map_iff in I. destruct I as (b & E & I).
  apply Hf in E. now subst b.
Qed.

Lemma generated_nodes_ids (np_round : R -> R) (name : string) (lat lon : list R) :
  map Node_ID (generated_nodes np_round name lat lon)
  = map (fun i => (name ++ decimal i)%string)
        (map fst (combine (seq 1 100) (combine lat lon))).
Proof.
  unfold generated_nodes. rewrite !map_map. apply map_ext.
  intros [i [la lo]]. reflexivity.
Qed.

Lemma generated_nodes_NoDup (np_round : R -> R) (name : string) (lat lon : list R) :
  NoDup (map Node_ID (generated_nodes np_round name lat lon)).
Proof.
  rewrite generated_nodes_ids.
  apply map_inj_NoDup.
  - intros i j H. apply append_inv_head in H. now apply decimal_inj.
  - apply combine_fst_NoDup, seq_NoDup.
Qed.

Lemma generated_nodes_not_warehouse (np_round : R -> R) (name : string)
    (lat lon : list R) (id : string) :
  (forall s, (name ++ s)%string <> "Warehouse"%string) ->
  In id (map Node_ID (generated_nodes np_round name lat lon)) ->
  String.eqb id "Warehouse" = false.
Proof.
  intros Hn I. rewrite generated_nodes_ids in I.
  apply in_map_iff in I. destruct I as (i & <- & _).
  apply String.eqb_neq, Hn.
Qed.

Lemma filter_all (A : Type) (f : A -> bool) (l : list A) :
  Forall (fun a => f a = true) l -> filter f l = l.
Proof.
  induction 1 as [|a l Ha _ IH]; simpl; [reflexivity|]. now rewrite Ha, IH.
Qed.

Lemma filter_none (A : Type) (f : A -> bool) (l : list A) :
  Forall (fun a => f a = false) l -> filter f l = [].
Proof.
  induction 1 as [|a l Ha _ IH]; simpl; [reflexivity|]. now rewrite Ha.
Qed.

Lemma generated_inbound_sides (np_round : R -> R) (origin : list string)
    (volume : list R) (r : shipment_record) :
  In r (generated_inbound np_round origin volume) ->
  Destination r = "Warehouse"%string /\ In (Origin r) origin.
Proof.
  unfold generated_inbound. intros I. apply in_map_iff in I.
  destruct I as ([i [o v]] & <- & I). simpl. split; [reflexivity|].
  apply in_combine_r in I. now apply in_combine_l in I.
Qed.

Lemma generated_outbound_sides (np_round : R -> R) (destination : list string)
    (volume : list R) (r : shipment_record) :
  In r (generated_outbound np_round destination volume) ->
  Origin r = "Warehouse"%string /\ In (Destination r) destination.
Proof.
  unfold generated_outbound. intros I. apply in_map_iff in I.
  destruct I as ([i [d v]] & <- & I). simpl. split; [reflexivity|].
  apply in_combine_r in I. now apply in_combine_l in I.
Qed.

(** X15: the generated supplier identifiers are pairwise distinct, and so are
    the generated customer identifiers, whatever the random draws are. *)
Theorem generated_identifiers_distinct (np_round : R -> R)
    (supplier_lat supplier_lon customer_lat customer_lon : list R) :
  NoDup (map Node_ID (generated_suppliers np_round supplier_lat supplier_lon))
  /\ NoDup (map Node_ID (generated_customers np_round customer_lat customer_lon)).
Proof.
  split; apply generated_nodes_NoDup.
Qed.

(** X16: the generated files always load into complete frames: when the
    random choice returns 250 origins among the generated supplier identifiers
    and 250 destinations among the generated customer identifiers, with 250
    volumes each, [load_and_prepare_data] on the generated tables gives an
    inbound and an outbound frame of 250 rows each, with no NaN coordinate. *)
Theorem generated_data_loads_completely (np_round : R -> R)
    (supplier_lat supplier_lon customer_lat customer_lon : list R)
    (inbound_origin outbound_destination : list string)
    (inbound_volume outbound_volume : list R) :
  List.length inbound_origin = 250%nat ->
  List.length inbound_volume = 250%nat ->
  List.length outbound_destination = 250%nat ->
  List.length outbound_volume = 250%nat ->
  Forall (fun o => In o (map Node_ID
                           (generated_suppliers np_round supplier_lat supplier_lon)))
    inbound_origin ->
  Forall (fun d => In d (map Node_ID
                           (generated_customers np_round customer_lat customer_lon)))
    outbound_destination ->
  let '(inbound, outbound, _, _) :=
    load_and_prepare_data
      (generated_suppliers np_round supplier_lat supplier_lon)
      (generated_customers np_round customer_lat customer_lon)
      (generated_shipments np_round inbound_origin outbound_destination
         inbound_volume outbound_volume) in
  exists rows_in rows_out,
    cost_rows inbound = Some rows_in /\ cost_rows outbound = Some rows_out
    /\ List.length rows_in = 250%nat /\ List.length rows_out = 250%nat.
Proof.
  intros Lo Lv Ld Lw Ho Hd.
  rewrite Forall_forall in Ho, Hd.
  unfold load_and_prepare_data, generated_shipments.
  set (gin := generated_inbound np_round inbound_origin inbound_volume).
  set (gout := generated_outbound np_round outbound_destination outbound_volume).
  assert (Fin : filter (fun r => String.eqb (Destination r) "Warehouse") (gin ++ gout)
                = gin).
  { rewrite filter_app, filter_all, filter_none; [apply app_nil_r | |].
    - apply Forall_forall. intros r I.
      apply generated_outbound_sides in I. destruct I as [_ I].
      apply (generated_nodes_not_warehouse np_round "Customer_ID"
               customer_lat customer_lon); [discriminate|]. now apply Hd.
    - apply Forall_forall. intros r I.
      apply generated_inbound_sides in I. destruct I as [-> _]. reflexivity. }
  assert (Fout : filter (fun r => String.eqb (Origin r) "Warehouse") (gin ++ gout)
                 = gout).
  { rewrite filter_app, filter_none, filter_all; [reflexivity | |].
    - apply Forall_forall. intros r I.
      apply generated_outbound_sides in I. destruct I as [-> _]. reflexivity.
    - apply Forall_forall. intros r I.
      apply generated_inbound_sides in I. destruct I as [_ I].
      apply (generated_nodes_not_warehouse np_round "Supplier_ID"
               supplier_lat supplier_lon); [discriminate|]. now apply Ho. }
  rewrite Fin, Fout.
  assert (Lin : List.length gin = 250%nat).
  { subst gin. unfold generated_inbound.
    rewrite length_map, !length_combine, length_seq, Lo, Lv. reflexivity. }
  assert (Lout : List.length gout = 250%nat).
  { subst gout. unfold generated_outbound.
    rewrite length_map, !length_combine, length_seq, Ld, Lw. reflexivity. }
  destruct (cost_rows_joined
              (generated_suppliers np_round supplier_lat supplier_lon) Origin gin
              (merge_left Origin gin
                 (generated_suppliers np_round supplier_lat supplier_lon)))
    as (rows_in & Ein & Fi).
  { apply merge_left_one_to_one; [apply generated_nodes_NoDup|].
    apply Forall_forall. intros r I.
    apply generated_inbound_sides in I. destruct I as [_ I]. now apply Ho. }
  destruct (cost_rows_joined
              (generated_customers np_round customer_lat customer_lon) Destination gout
              (merge_left Destination gout
                 (generated_customers np_round customer_lat customer_lon)))
    as (rows_out & Eout & Fo).
  { apply merge_left_one_to_one; [apply generated_nodes_NoDup|].
    apply Forall_forall. intros r I.
    apply generated_outbound_sides in I. destruct I as [_ I]. now apply Hd. }
  exists rows_in, rows_out.
  split; [exact Ein|]. split; [exact Eout|].
  apply Forall2_length in Fi, Fo. lia.
Qed.

Lemma generated_data_loads_completely_witness :
  let draws := repeat 50 100 in
  let origins := repeat "Supplier_ID1"%string 250 in
  let destinations := repeat "Customer_ID2"%string 250 in
  let volumes := repeat 55 250 in
  let '(inbound, outbound, _, _) :=
    load_and_prepare_data
      (generated_suppliers (fun v => v) draws draws)
      (generated_customers (fun v => v) draws draws)
      (generated_shipments (fun v => v) origins destinations volumes volumes) in
  exists rows_in rows_out,
    cost_rows inbound = Some rows_in /\ cost_rows outbound = Some rows_out
    /\ List.length rows_in = 250%nat /\ List.length rows_out = 250%nat.
Proof.
  intros draws origins destinations volumes.
  apply (generated_data_loads_completely (fun v => v) draws draws draws draws
           origins destinations volumes volumes);
    try (apply repeat_length).
  - apply Forall_forall. intros o I. apply repeat_spec in I. subst o.
    left. reflexivity.
  - apply Forall_forall. intros d I. apply repeat_spec in I. subst d.
    right. left. reflexivity.
Defined.

(** ** The map *)

Lemma progress_circles_locations (format_money : R -> string) (p : point)
    (h : list R) : forall start,
  map circle_location (progress_circles format_money p start h)
  = map (fun i => (fst p + 0.1, snd p + 0.1 + INR i * 0.01)) (seq start (List.length h)).
Proof.
  induction h as [|cost h IH]; intros start; simpl; [reflexivity|].
  now rewrite IH.
Qed.

Lemma progress_circles_popups (format_money : R -> string) (p : point)
    (h : list R) : forall start,
  map circle_popup (progress_circles format_money p start h)
  = map (fun '(i, cost) =>
           ("Iteration " ++ decimal (i + 1) ++ ": $" ++ format_money cost)%string)
        (combine (seq start (List.length h)) h).
Proof.
  induction h as [|cost h IH]; intros start; simpl; [reflexivity|].
  now rewrite IH.
Qed.

(** X17: the "Optimization Progress" group, which the function adds after the
    supplier, customer and optimum markers, has one circle per entry of the
    cost history; circle [i], counting from 0, sits at latitude + 0.1 and
    longitude + 0.1 + 0.01 i of the optimum and is labelled iteration [i + 1]
    with that entry's cost, so the circles lie at pairwise distinct places
    that depend on the optimum and the number of entries only. *)
Theorem progress_circles_line_up (format_4f format_money : R -> string)
    (optimal_coords : point) (suppliers customers : nodes) (cost_history : list R) :
  exists circles,
    nth_error (children (create_interactive_map format_4f format_money optimal_coords
                           suppliers customers cost_history))
      (List.length suppliers + List.length customers + 1)
    = Some (FeatureGroup "Optimization Progress" circles)
    /\ map circle_location circles
       = map (fun i => (fst optimal_coords + 0.1,
                        snd optimal_coords + 0.1 + INR i * 0.01))
             (seq 0 (List.length cost_history))
    /\ map circle_popup circles
       = map (fun '(i, cost) =>
                ("Iteration " ++ decimal (i + 1) ++ ": $" ++ format_money cost)%string)
             (combine (seq 0 (List.length cost_history)) cost_history)
    /\ NoDup (map circle_location circles).
Proof.
  exists (progress_circles format_money optimal_coords 0 cost_history).
  split; [|split; [apply progress_circles_locations|
                   split; [apply progress_circles_popups|]]].
  - unfold create_interactive_map. cbn [children].
    rewrite nth_error_app2 by (rewrite length_map; lia).
    rewrite nth_error_app2 by (rewrite !length_map; lia).
    rewrite !length_map.
    replace (List.length suppliers + List.length customers + 1
             - List.length suppliers - List.length customers)%nat with 1%nat by lia.
    reflexivity.
  - rewrite progress_circles_locations. apply map_inj_NoDup; [|apply seq_NoDup].
    intros i j H. injection H as H.
    apply INR_eq. lra.
Qed.
